(** * Validation hooks and orchestrator of the web full-stack blueprint

    A shallow embedding of the four Python modules

      - [ai/hooks/prd_validator.py]          (class [PRDValidator])
      - [ai/hooks/user_prompt_submit.py]     (class [UserPromptSubmitValidator])
      - [ai/hooks/web_performance_guard.py]  (class [PerformanceGuard])
      - [ai/orchestrator.py]                 (class [Orchestrator])

    Every hook reads a document obtained from [json.loads] and answers with
    a dictionary.  Documents and answers are values of the type [pyval]
    below; a Python exception escaping a method is a [Raise] result. *)

From Stdlib Require Import ZArith List String Ascii Bool Lia.
From Stdlib Require Import SpecFloat DecimalString DecimalNat DecimalZ.
Import ListNotations.

Local Open Scope string_scope.
Local Open Scope list_scope.

Infix "+++" := String.append (at level 60, right associativity).

(** ** Python values *)

(** What [json.loads] can return.  A Python [str] is the [string] of its
    UTF-8 bytes, so a character outside ASCII takes several [ascii]; a
    Python [dict] is the list of its bindings in insertion order.  The
    keys of a dictionary are pairwise distinct; no
    property below needs that, and [lookup] reads the first binding of a
    key. *)
#[warnings="-register-all"]
Inductive pyval : Type :=
| PNone
| PBool (b : bool)
| PInt (z : Z)
| PFloat (f : spec_float)
| PStr (s : string)
| PList (l : list pyval)
| PDict (d : list (string * pyval)).

Definition pydict : Type := list (string * pyval).

(** ** Exceptions *)

Inductive exn : Type :=
| TypeError
| AttributeError
| KeyError
| OverflowError
| ZeroDivisionError
| ValueError.

Inductive result (A : Type) : Type :=
| Ok (a : A)
| Raise (e : exn).

Arguments Ok {A} a.
Arguments Raise {A} e.

Definition bind {A B : Type} (c : result A) (k : A -> result B) : result B :=
  match c with
  | Ok a => k a
  | Raise e => Raise e
  end.

Notation "x <- c ;; k" := (bind c (fun x => k))
  (at level 61, c at next level, right associativity).

(** [for x in xs: acc.extend(body(x))], the shape of every checking loop
    of the hooks; the first exception ends the loop. *)
Fixpoint for_extend {A B : Type} (body : A -> result (list B)) (xs : list A)
  : result (list B) :=
  match xs with
  | [] => Ok []
  | x :: xs' =>
      here <- body x ;;
      rest <- for_extend body xs' ;;
      Ok (here ++ rest)
  end.

(** ** Dictionaries *)

Fixpoint lookup (k : string) (d : pydict) : option pyval :=
  match d with
  | [] => None
  | (k', v) :: d' => if String.eqb k k' then Some v else lookup k d'
  end.

(** [k in d] for a dictionary [d]. *)
Definition has_key (k : string) (d : pydict) : bool :=
  match lookup k d with
  | Some _ => true
  | None => false
  end.

(** [d.get(k)]: [None] when the key is absent. *)
Definition dict_get (k : string) (d : pydict) : pyval :=
  match lookup k d with
  | Some v => v
  | None => PNone
  end.

(** [d[k] = v]: the value of a key already there is replaced where the key
    stands, a new key goes last. *)
Fixpoint dict_set (k : string) (v : pyval) (d : pydict) : pydict :=
  match d with
  | [] => [(k, v)]
  | (k', v') :: d' =>
      if String.eqb k k' then (k', v) :: d' else (k', v') :: dict_set k v d'
  end.

(** Field of an answer, when the answer is a dictionary that has it. *)
Definition field (k : string) (v : pyval) : option pyval :=
  match v with
  | PDict d => lookup k d
  | _ => None
  end.

(** ** Strings *)

(** [sub in s] for two strings. *)
Fixpoint contains (sub s : string) : bool :=
  String.prefix sub s
  || match s with
     | EmptyString => false
     | String _ s' => contains sub s'
     end.

(** A byte that continues a character of several bytes: [10xxxxxx]. *)
Definition is_continuation (c : ascii) : bool :=
  let n := nat_of_ascii c in (128 <=? n)%nat && (n <? 192)%nat.

Definition starts_with_continuation (s : string) : bool :=
  match s with
  | EmptyString => false
  | String c _ => is_continuation c
  end.

(** The characters of a string, each as a one-character string: a
    character is a byte together with the continuation bytes after it. *)
Fixpoint chars (s : string) : list string :=
  match s with
  | EmptyString => []
  | String c s' =>
      match chars s' with
      | g :: gs =>
          if starts_with_continuation s' then String c g :: gs
          else String c EmptyString :: g :: gs
      | [] => [String c EmptyString]
      end
  end.

(** [", ".join(parts)]. *)
Fixpoint join (sep : string) (parts : list string) : string :=
  match parts with
  | [] => ""
  | [p] => p
  | p :: ps => p +++ sep +++ join sep ps
  end.

Definition str_of_nat (n : nat) : string :=
  NilEmpty.string_of_uint (Nat.to_uint n).

Definition str_of_Z (z : Z) : string :=
  NilZero.string_of_int (Z.to_int z).

(** The number of decimal digits of an integer, its sign left out. *)
Definition int_digits (z : Z) : nat :=
  String.length (str_of_Z (Z.abs z)).

(** The longest integer, in decimal digits, that the interpreter turns
    into text: the default of [sys.get_int_max_str_digits()]. *)
Definition int_max_str_digits : nat := 4300.

Definition is_lower (c : ascii) : bool :=
  let n := nat_of_ascii c in (97 <=? n)%nat && (n <=? 122)%nat.

Definition is_upper (c : ascii) : bool :=
  let n := nat_of_ascii c in (65 <=? n)%nat && (n <=? 90)%nat.

Definition to_upper (c : ascii) : ascii :=
  if is_lower c then ascii_of_nat (nat_of_ascii c - 32) else c.

Definition to_lower (c : ascii) : ascii :=
  if is_upper c then ascii_of_nat (nat_of_ascii c + 32) else c.

(** [s.title()] on the letters a-z and A-Z: a letter that follows a letter
    is lowered, any other letter is raised.  The guard applies it to the
    keys of its bundle budget table only. *)
Fixpoint title_from (after_letter : bool) (s : string) : string :=
  match s with
  | EmptyString => EmptyString
  | String c s' =>
      if is_lower c || is_upper c
      then String (if after_letter then to_lower c else to_upper c)
                  (title_from true s')
      else String c (title_from false s')
  end.

Definition title (s : string) : string := title_from false s.

(** ** Dynamic operations on values *)

(** Truth value of a value, as [not v] and [if v] see it.  A NaN is true. *)
Definition truthy (v : pyval) : bool :=
  match v with
  | PNone => false
  | PBool b => b
  | PInt z => negb (z =? 0)%Z
  | PFloat (S754_zero _) => false
  | PFloat _ => true
  | PStr s => negb (String.eqb s "")
  | PList l => match l with [] => false | _ => true end
  | PDict d => match d with [] => false | _ => true end
  end.

(** [v == s] for a string [s]. *)
Definition eq_str (v : pyval) (s : string) : bool :=
  match v with
  | PStr s' => String.eqb s' s
  | _ => false
  end.

(** [k in v] for a string [k]: key of a dictionary, element of a list,
    substring of a string; [TypeError] on anything else. *)
Definition py_in (k : string) (v : pyval) : result bool :=
  match v with
  | PDict d => Ok (has_key k d)
  | PList l => Ok (existsb (fun x => eq_str x k) l)
  | PStr s => Ok (contains k s)
  | _ => Raise TypeError
  end.

(** [v[k]] for a string [k]. *)
Definition py_getitem (v : pyval) (k : string) : result pyval :=
  match v with
  | PDict d => match lookup k d with
               | Some x => Ok x
               | None => Raise KeyError
               end
  | _ => Raise TypeError
  end.

(** [v.items()]. *)
Definition py_items (v : pyval) : result (list (string * pyval)) :=
  match v with
  | PDict d => Ok d
  | _ => Raise AttributeError
  end.

(** [len(v)]. *)
Definition py_len (v : pyval) : result nat :=
  match v with
  | PStr s => Ok (List.length (chars s))
  | PList l => Ok (List.length l)
  | PDict d => Ok (List.length d)
  | _ => Raise TypeError
  end.

(** The elements [for x in v] goes through. *)
Definition py_iter (v : pyval) : result (list pyval) :=
  match v with
  | PStr s => Ok (map PStr (chars s))
  | PList l => Ok l
  | PDict d => Ok (map (fun kv => PStr (fst kv)) d)
  | _ => Raise TypeError
  end.

(** [enumerate(xs)]. *)
Fixpoint enumerate_from {A : Type} (i : nat) (xs : list A) : list (nat * A) :=
  match xs with
  | [] => []
  | x :: xs' => (i, x) :: enumerate_from (S i) xs'
  end.

Definition enumerate {A : Type} (xs : list A) : list (nat * A) :=
  enumerate_from 0 xs.

(** ** Numbers *)

(** Python floats are IEEE 754 binary64 numbers: [spec_float] at precision
    53 and maximal exponent 1024, rounded to nearest, ties to even. *)
Module Float64.

Definition prec : Z := 53.
Definition emax : Z := 1024.

Definition div : spec_float -> spec_float -> spec_float := SFdiv prec emax.
Definition mul : spec_float -> spec_float -> spec_float := SFmul prec emax.

(** [float(z)], correctly rounded; an infinity when [z] is out of range. *)
Definition of_Z (z : Z) : spec_float := binary_normalize prec emax z 0 false.

(** The float written [0.1]: the binary64 number nearest to one tenth. *)
Definition tenth : spec_float := S754_finite false 7205759403792794 (-56).

(** An integer as an unrounded mantissa with exponent 0, the operand of
    the division of two integers, which rounds only once. *)
Definition raw (z : Z) : spec_float :=
  match z with
  | Z0 => S754_zero false
  | Zpos p => S754_finite false p 0
  | Zneg p => S754_finite true p 0
  end.

Definition is_inf (f : spec_float) : bool :=
  match f with
  | S754_infinity _ => true
  | _ => false
  end.

Definition is_zero (f : spec_float) : bool :=
  match f with
  | S754_zero _ => true
  | _ => false
  end.

(** Exact comparison of an integer with a float; [None] on a NaN. *)
Definition compare_Z (z : Z) (f : spec_float) : option comparison :=
  match f with
  | S754_nan => None
  | S754_infinity s => Some (if s then Gt else Lt)
  | S754_zero _ => Some (z ?= 0)%Z
  | S754_finite s m e =>
      let v := if s then Zneg m else Zpos m in
      Some (if (0 <=? e)%Z
            then (z ?= v * 2 ^ e)%Z
            else (z * 2 ^ (- e) ?= v)%Z)
  end.

(** [n / d] rounded to the nearest integer, ties to even, for [0 <= n]
    and [0 < d]. *)
Definition div_half_even (n d : Z) : Z :=
  let q := (n / d)%Z in
  match (2 * (n mod d) ?= d)%Z with
  | Lt => q
  | Gt => (q + 1)%Z
  | Eq => if Z.even q then q else (q + 1)%Z
  end.

(** [round(f, 1)]: the exact value of [f] is rounded to a whole number of
    tenths, ties to even, and that decimal is read back as a float.
    Infinities, NaN, zeros and whole numbers round to themselves. *)
Definition round1 (f : spec_float) : spec_float :=
  match f with
  | S754_finite s m e =>
      if (0 <=? e)%Z then f
      else
        match div_half_even (10 * Zpos m) (2 ^ (- e)) with
        | Zpos tenths => div (S754_finite s tenths 0) (S754_finite false 10 0)
        | _ => S754_zero s
        end
  | _ => f
  end.

End Float64.

(** The numbers of Python arithmetic; a [bool] counts as the integer 0 or 1. *)
Inductive pynum : Type :=
| NInt (z : Z)
| NFloat (f : spec_float).

Definition as_num (v : pyval) : result pynum :=
  match v with
  | PBool b => Ok (NInt (Z.b2z b))
  | PInt z => Ok (NInt z)
  | PFloat f => Ok (NFloat f)
  | _ => Raise TypeError
  end.

Definition num_val (n : pynum) : pyval :=
  match n with
  | NInt z => PInt z
  | NFloat f => PFloat f
  end.

(** Comparison of two numbers by value; [None] when a NaN is involved. *)
Definition num_compare (a b : pynum) : option comparison :=
  match a, b with
  | NInt x, NInt y => Some (x ?= y)%Z
  | NFloat x, NFloat y => SFcompare x y
  | NInt x, NFloat y => Float64.compare_Z x y
  | NFloat x, NInt y => option_map CompOpp (Float64.compare_Z y x)
  end.

(** [v < n] and [v > n] for a number [n]; [TypeError] when [v] is no
    number. *)
Definition py_lt (v : pyval) (n : pynum) : result bool :=
  a <- as_num v ;;
  Ok (match num_compare a n with Some Lt => true | _ => false end).

Definition py_gt (v : pyval) (n : pynum) : result bool :=
  a <- as_num v ;;
  Ok (match num_compare a n with Some Gt => true | _ => false end).

(** [float(n)]; [OverflowError] for an integer too large for a float. *)
Definition to_float (n : pynum) : result spec_float :=
  match n with
  | NFloat f => Ok f
  | NInt z =>
      let f := Float64.of_Z z in
      if Float64.is_inf f then Raise OverflowError else Ok f
  end.

(** [v / n], true division.  Two integers give the correctly rounded
    quotient; otherwise both operands become floats first. *)
Definition py_truediv (v : pyval) (n : pynum) : result spec_float :=
  a <- as_num v ;;
  match a, n with
  | NInt x, NInt y =>
      if (y =? 0)%Z then Raise ZeroDivisionError
      else
        let q := Float64.div (Float64.raw x) (Float64.raw y) in
        if Float64.is_inf q then Raise OverflowError else Ok q
  | _, _ =>
      x <- to_float a ;;
      y <- to_float n ;;
      if Float64.is_zero y then Raise ZeroDivisionError
      else Ok (Float64.div x y)
  end.

(** [f * n] for a float [f]. *)
Definition float_mul (f : spec_float) (n : pynum) : result spec_float :=
  y <- to_float n ;;
  Ok (Float64.mul f y).

(** Lookup in one of the constant tables of a hook. *)
Fixpoint table_find {A : Type} (k : string) (tbl : list (string * A))
  : option A :=
  match tbl with
  | [] => None
  | (k', a) :: tbl' => if String.eqb k k' then Some a else table_find k tbl'
  end.

(** [k in tbl]. *)
Definition table_has {A : Type} (k : string) (tbl : list (string * A)) : bool :=
  match table_find k tbl with
  | Some _ => true
  | None => false
  end.

(** [tbl[k]]. *)
Definition table_get {A : Type} (k : string) (tbl : list (string * A))
  : result A :=
  match table_find k tbl with
  | Some a => Ok a
  | None => Raise KeyError
  end.

(** A table of numbers as the dictionary it is in the source. *)
Definition table_val {A : Type} (val : A -> pyval) (tbl : list (string * A))
  : pyval :=
  PDict (map (fun ka => (fst ka, val (snd ka))) tbl).

(** * [web_performance_guard.py] *)

Module PerformanceGuard.

(** [self.budgets].  The values are integers, but for the layout-shift
    budget, which is the float [0.1]. *)
Record budget_tables : Type := {
  lighthouse_min_score : Z;
  lighthouse_categories : list string;
  core_web_vitals : list (string * pynum);
  bundle_sizes : list (string * Z);
  network : list (string * Z)
}.

Record t : Type := {
  timestamp : string;
  budgets : budget_tables
}.

(** [__init__]; [now] is [datetime.now().isoformat()]. *)
Definition init (now : string) : t :=
  {| timestamp := now;
     budgets :=
       {| lighthouse_min_score := 90;
          lighthouse_categories :=
            ["performance"; "accessibility"; "best-practices"; "seo"];
          core_web_vitals :=
            [("fcp", NInt 1500); ("lcp", NInt 2500); ("tti", NInt 3500);
             ("cls", NFloat Float64.tenth)];
          bundle_sizes :=
            [("javascript", 300%Z); ("css", 75%Z); ("images", 1000%Z);
             ("fonts", 100%Z)];
          network :=
            [("ttfb", 200%Z); ("3g_load_time", 5000%Z);
             ("4g_load_time", 3000%Z)] |} |}.

Section Checks.

(** [str] of the values whose text the model does not compute: floats
    (shortest digits that read back) and containers. *)
Variable repr : pyval -> string.

(** [f"{v}"].  The text of an integer of more than [int_max_str_digits]
    digits is refused with a [ValueError]. *)
Definition py_str (v : pyval) : result string :=
  match v with
  | PNone => Ok "None"
  | PBool true => Ok "True"
  | PBool false => Ok "False"
  | PInt z =>
      if (int_max_str_digits <? int_digits z)%nat then Raise ValueError
      else Ok (str_of_Z z)
  | PStr s => Ok s
  | _ => Ok (repr v)
  end.

Definition _check_lighthouse (self : t) (scores : pyval)
  : result (list pyval) :=
  let min_score := NInt (lighthouse_min_score (budgets self)) in
  items <- py_items scores ;;
  for_extend
    (fun '(category, score) =>
       below <- py_lt score min_score ;;
       if below : bool then
         q <- py_truediv score min_score ;;
         percentage <- float_mul q (NInt 100) ;;
         score_text <- py_str score ;;
         min_text <- py_str (num_val min_score) ;;
         Ok [PDict
               [("type", PStr "critical");
                ("metric", PStr ("Lighthouse " +++ category));
                ("value", score);
                ("budget", num_val min_score);
                ("message",
                 PStr ("Lighthouse " +++ category +++ " score ("
                       +++ score_text +++ ") is below minimum ("
                       +++ min_text +++ ")"))]]
       else Ok [])
    items.

Definition _check_core_web_vitals (self : t) (cwv : pyval)
  : result (list pyval) :=
  let budgets := core_web_vitals (budgets self) in
  let metric_names :=
    [("fcp", "First Contentful Paint");
     ("lcp", "Largest Contentful Paint");
     ("tti", "Time to Interactive");
     ("cls", "Cumulative Layout Shift")] in
  for_extend
    (fun '(metric_key, metric_name) =>
       present <- py_in metric_key cwv ;;
       if present : bool then
         value <- py_getitem cwv metric_key ;;
         budget <- table_get metric_key budgets ;;
         over <- py_gt value budget ;;
         if over : bool then
           value_text <- py_str value ;;
           budget_text <- py_str (num_val budget) ;;
           Ok [PDict
                 [("type", PStr "critical");
                  ("metric", PStr metric_name);
                  ("value", value);
                  ("budget", num_val budget);
                  ("unit",
                   PStr (if negb (String.eqb metric_key "cls")
                         then "ms" else ""));
                  ("message",
                   PStr (metric_name +++ " (" +++ value_text
                         +++ "ms) exceeds budget ("
                         +++ budget_text +++ "ms)"))]]
         else Ok []
       else Ok [])
    metric_names.

Definition _check_bundle_sizes (self : t) (sizes : pyval)
  : result (list pyval) :=
  let budgets := bundle_sizes (budgets self) in
  items <- py_items sizes ;;
  for_extend
    (fun '(asset_type, size_kb) =>
       if table_has asset_type budgets then
         budget <- table_get asset_type budgets ;;
         q <- py_truediv size_kb (NInt budget) ;;
         percentage <- float_mul q (NInt 100) ;;
         over <- py_gt size_kb (NInt budget) ;;
         if over : bool then
           above <- py_gt (PFloat percentage) (NInt 110) ;;
           let level := if above : bool then "critical" else "warning" in
           size_text <- py_str size_kb ;;
           budget_text <- py_str (PInt budget) ;;
           Ok [PDict
                 [("type", PStr level);
                  ("metric", PStr (title asset_type +++ " bundle"));
                  ("value", size_kb);
                  ("budget", PInt budget);
                  ("unit", PStr "KB");
                  ("percentage", PFloat (Float64.round1 percentage));
                  ("message",
                   PStr (asset_type +++ " size (" +++ size_text
                         +++ "KB) exceeds budget ("
                         +++ budget_text +++ "KB)"))]]
         else Ok []
       else Ok [])
    items.

Definition _check_network (self : t) (network_metrics : pyval)
  : result (list pyval) :=
  let budgets := network (budgets self) in
  items <- py_items network_metrics ;;
  for_extend
    (fun '(metric_key, value) =>
       if table_has metric_key budgets then
         budget <- table_get metric_key budgets ;;
         over <- py_gt value (NInt budget) ;;
         if over : bool then
           value_text <- py_str value ;;
           budget_text <- py_str (PInt budget) ;;
           Ok [PDict
                 [("type", PStr "warning");
                  ("metric", PStr metric_key);
                  ("value", value);
                  ("budget", PInt budget);
                  ("unit", PStr "ms");
                  ("message",
                   PStr (metric_key +++ " (" +++ value_text
                         +++ "ms) exceeds budget ("
                         +++ budget_text +++ "ms)"))]]
         else Ok []
       else Ok [])
    items.

(** [if key in metrics: violations.extend(check(metrics[key]))]. *)
Definition extend_if_present (key : string) (metrics : pydict)
  (check : pyval -> result (list pyval)) (violations : list pyval)
  : result (list pyval) :=
  if has_key key metrics then
    issues <- check (dict_get key metrics) ;;
    Ok (violations ++ issues)
  else Ok violations.

Definition validate_performance (self : t) (metrics : pydict)
  : result pyval :=
  let violations := [] in
  let warnings := [] in
  violations <-
    extend_if_present "lighthouse" metrics (_check_lighthouse self)
      violations ;;
  violations <-
    extend_if_present "core_web_vitals" metrics (_check_core_web_vitals self)
      violations ;;
  violations <-
    extend_if_present "bundle_sizes" metrics (_check_bundle_sizes self)
      violations ;;
  violations <-
    extend_if_present "network" metrics (_check_network self) violations ;;
  Ok (PDict
        [("valid", PBool (List.length violations =? 0)%nat);
         ("violations", PList violations);
         ("warnings", PList warnings);
         ("timestamp", PStr (timestamp self))]).

Definition get_budget_summary (self : t) : pyval :=
  PDict
    [("lighthouse_minimum", PInt (lighthouse_min_score (budgets self)));
     ("core_web_vitals", table_val num_val (core_web_vitals (budgets self)));
     ("bundle_limits", table_val PInt (bundle_sizes (budgets self)));
     ("network_targets", table_val PInt (network (budgets self)))].

Definition process (self : t) (metrics : pydict) : result pyval :=
  validation <- validate_performance self metrics ;;
  valid <- py_getitem validation "valid" ;;
  if truthy valid then
    Ok (PDict
          [("valid", PBool true);
           ("message", PStr "All performance budgets met");
           ("budget_summary", get_budget_summary self);
           ("timestamp", PStr (timestamp self));
           ("approved_for_merge", PBool true)])
  else
    violations <- py_getitem validation "violations" ;;
    warnings <- py_getitem validation "warnings" ;;
    Ok (PDict
          [("valid", PBool false);
           ("violations", violations);
           ("warnings", warnings);
           ("timestamp", PStr (timestamp self));
           ("action_required",
            PStr "Fix performance violations before merge");
           ("budget_summary", get_budget_summary self)]).

End Checks.

End PerformanceGuard.

(** * [prd_validator.py] *)

Module PRDValidator.

Record t : Type := {
  prd_path : string;
  timestamp : string;
  required_sections : list string
}.

(** [__init__]; [now] is [datetime.now().isoformat()]. *)
Definition init (prd_path now : string) : t :=
  {| prd_path := prd_path;
     timestamp := now;
     required_sections :=
       ["Executive Summary";
        "Problem Statement";
        "Target Users/Personas";
        "Core Features";
        "Success Metrics";
        "Constraints";
        "Timeline";
        "Non-Goals"] |}.

Definition default_prd_path : string := "./product/prd.md".

Definition required_feature_fields : list string :=
  ["name"; "priority"; "description"; "acceptance_criteria"].

Definition required_metric_categories : list string :=
  ["development"; "quality"; "performance"; "security"; "accessibility"].

Definition required_constraint_categories : list string :=
  ["technical"; "performance"; "security"; "compliance"].

Definition missing_section_msg (section : string) : string :=
  "Missing section: " +++ section.

Definition missing_feature_field_msg (idx : nat) (field : string) : string :=
  "Feature " +++ str_of_nat idx +++ ": missing field '" +++ field +++ "'".

Definition missing_metric_msg (category : string) : string :=
  "Missing metric category: " +++ category.

Definition missing_constraint_msg (category : string) : string :=
  "Missing constraint category: " +++ category.

(** [for k in required: if k not in v: issues.append(msg(k))]. *)
Definition report_absent (msg : string -> string) (required : list string)
  (v : pyval) : result (list string) :=
  for_extend
    (fun k =>
       present <- py_in k v ;;
       if negb present then Ok [msg k] else Ok [])
    required.

Definition _validate_features (self : t) (features : pyval)
  : result (list string) :=
  let issues := [] in
  empty <-
    (if negb (truthy features) then Ok true
     else n <- py_len features ;; Ok (n =? 0)%nat) ;;
  if empty : bool then Ok (issues ++ ["No features defined"])
  else
    entries <- py_iter features ;;
    for_extend
      (fun '(idx, feature) =>
         report_absent (missing_feature_field_msg idx)
           required_feature_fields feature)
      (enumerate entries).

Definition _validate_metrics (self : t) (metrics : pyval)
  : result (list string) :=
  report_absent missing_metric_msg required_metric_categories metrics.

Definition _validate_constraints (self : t) (constraints : pyval)
  : result (list string) :=
  report_absent missing_constraint_msg required_constraint_categories
    constraints.

(** The first loop of [validate_prd]: the required sections that are no
    key of the document, in the order of [required_sections]. *)
Definition missing_sections (self : t) (prd_content : pydict) : list string :=
  flat_map
    (fun section =>
       if negb (has_key section prd_content)
       then [missing_section_msg section] else [])
    (required_sections self).

(** [if key in prd_content: issues.extend(check(prd_content[key]))]. *)
Definition extend_if_present (key : string) (prd_content : pydict)
  (check : pyval -> result (list string)) (issues : list string)
  : result (list string) :=
  if has_key key prd_content then
    found <- check (dict_get key prd_content) ;;
    Ok (issues ++ found)
  else Ok issues.

Definition validate_prd (self : t) (prd_content : pydict) : result pyval :=
  let issues := [] in
  let issues := issues ++ missing_sections self prd_content in
  issues <-
    extend_if_present "features" prd_content (_validate_features self)
      issues ;;
  issues <-
    extend_if_present "success_metrics" prd_content (_validate_metrics self)
      issues ;;
  issues <-
    extend_if_present "constraints" prd_content (_validate_constraints self)
      issues ;;
  Ok (PDict
        [("valid", PBool (List.length issues =? 0)%nat);
         ("issues", PList (map PStr issues));
         ("timestamp", PStr (timestamp self))]).

Definition get_prd_summary (self : t) : pyval :=
  PDict
    [("product", PStr "AI Web Full-Stack Blueprint");
     ("version", PStr "1.0.0");
     ("status", PStr "active");
     ("features_count", PInt 4);
     ("success_metrics",
      PList
        [PStr "13X development velocity";
         PStr "> 80% code coverage";
         PStr "Lighthouse > 90";
         PStr "Zero security vulnerabilities";
         PStr "WCAG 2.1 AA compliance"])].

Definition process (self : t) (prd_content : pydict) : result pyval :=
  validation <- validate_prd self prd_content ;;
  valid <- py_getitem validation "valid" ;;
  if truthy valid then
    let summary := get_prd_summary self in
    Ok (PDict
          [("valid", PBool true);
           ("prd_summary", summary);
           ("timestamp", PStr (timestamp self));
           ("ready_for_implementation", PBool true)])
  else
    issues <- py_getitem validation "issues" ;;
    Ok (PDict
          [("valid", PBool false);
           ("issues", issues);
           ("timestamp", PStr (timestamp self));
           ("action_required", PStr "Fix PRD issues before proceeding")]).

End PRDValidator.

(** * [user_prompt_submit.py] *)

(** [for field in required: if field not in request: return ...]: the
    field the loop returns on, if any. *)
Fixpoint first_missing (required : list string) (request : pydict)
  : option string :=
  match required with
  | [] => None
  | field :: rest =>
      if negb (has_key field request) then Some field
      else first_missing rest request
  end.

Module UserPromptSubmitValidator.

Record t : Type := {
  prd_path : string;
  timestamp : string
}.

Definition init (prd_path now : string) : t :=
  {| prd_path := prd_path; timestamp := now |}.

Definition required_fields : list string := ["type"; "action"; "description"].

Definition valid_types : list string :=
  ["feature"; "bugfix"; "refactor"; "documentation"].

Definition validate_request (self : t) (request : pydict) : pyval :=
  match first_missing required_fields request with
  | Some field =>
      PDict
        [("valid", PBool false);
         ("error", PStr ("Missing required field: " +++ field));
         ("timestamp", PStr (timestamp self))]
  | None =>
      if negb (existsb (eq_str (dict_get "type" request)) valid_types) then
        PDict
          [("valid", PBool false);
           ("error",
            PStr ("Invalid request type. Must be one of: "
                  +++ join ", " valid_types));
           ("timestamp", PStr (timestamp self))]
      else
        PDict [("valid", PBool true); ("timestamp", PStr (timestamp self))]
  end.

(** One entry of the feature list of the PRD summary. *)
Definition planned_feature (name priority : string) : pyval :=
  PDict
    [("name", PStr name);
     ("priority", PStr priority);
     ("status", PStr "planned")].

Definition _load_prd_summary (self : t) : pyval :=
  PDict
    [("product", PStr "AI Web Full-Stack Blueprint");
     ("features",
      PList
        [planned_feature "Marketing Homepage" "P0";
         planned_feature "User Authentication" "P0";
         planned_feature "Real-Time Dashboard" "P1";
         planned_feature "Blog/Content Management" "P2"])].

Definition _load_constraints (self : t) : pyval :=
  PDict
    [("performance",
      PDict
        [("lighthouse", PStr "> 90");
         ("first_contentful_paint", PStr "< 1.5s");
         ("largest_contentful_paint", PStr "< 2.5s");
         ("time_to_interactive", PStr "< 3.5s");
         ("cumulative_layout_shift", PStr "< 0.1")]);
     ("security",
      PDict
        [("authentication", PStr "JWT");
         ("password_min_length", PInt 12);
         ("rate_limiting", PStr "100 req/15min");
         ("https", PStr "required")]);
     ("accessibility",
      PDict
        [("wcag", PStr "2.1 AA");
         ("touch_target_size", PStr "44x44px minimum")]);
     ("browsers",
      PDict
        [("chrome", PStr ">= 90");
         ("firefox", PStr ">= 88");
         ("safari", PStr ">= 14")])].

Definition _get_quality_gates (self : t) : pyval :=
  PList
    [PStr "TypeScript compilation";
     PStr "ESLint passing";
     PStr "Jest tests (>80% coverage)";
     PStr "Lighthouse performance";
     PStr "Security scanning";
     PStr "Accessibility validation";
     PStr "SEO requirements";
     PStr "Bundle size limits"].

(** [inject_context] writes into the dictionary it is given and returns
    that same dictionary: the result is the caller's request after the
    call. *)
Definition inject_context (self : t) (request : pydict) : pydict :=
  let context :=
    PDict
      [("prd", _load_prd_summary self);
       ("constraints", _load_constraints self);
       ("quality_gates", _get_quality_gates self)] in
  dict_set "injected_context" context request.

(** [process]: the answer, and the caller's request as the call leaves
    it. *)
Definition process (self : t) (request : pydict) : result (pyval * pydict) :=
  (* Validate *)
  let validation := validate_request self request in
  valid <- py_getitem validation "valid" ;;
  if negb (truthy valid) then Ok (validation, request)
  else
    (* Inject context *)
    let enriched_request := inject_context self request in
    Ok (PDict
          [("valid", PBool true);
           ("request", PDict enriched_request);
           ("timestamp", PStr (timestamp self));
           ("ready_for_orchestrator", PBool true)],
        enriched_request).

End UserPromptSubmitValidator.

(** * [orchestrator.py] *)

Inductive WorkflowPhase : Type :=
| VALIDATE_REQUEST
| VALIDATE_PRD
| PLAN
| IMPLEMENT
| TEST
| REVIEW
| DEPLOY.

(** [phase.value]. *)
Definition phase_value (phase : WorkflowPhase) : string :=
  match phase with
  | VALIDATE_REQUEST => "validate_request"
  | VALIDATE_PRD => "validate_prd"
  | PLAN => "plan"
  | IMPLEMENT => "implement"
  | TEST => "test"
  | REVIEW => "review"
  | DEPLOY => "deploy"
  end.

Module Orchestrator.

Record t : Type := {
  timestamp : string;
  workflow_phases : list WorkflowPhase;
  agents : pyval
}.

Definition agent_state (status : string) (capacity : Z) : pyval :=
  PDict [("status", PStr status); ("capacity", PInt capacity)].

(** [__init__]; [now] is [datetime.now().isoformat()]. *)
Definition init (now : string) : t :=
  {| timestamp := now;
     workflow_phases :=
       [VALIDATE_REQUEST; VALIDATE_PRD; PLAN; IMPLEMENT; TEST; REVIEW; DEPLOY];
     agents :=
       PDict
         [("orchestrator", agent_state "active" 5);
          ("frontend_engineer", agent_state "ready" 3);
          ("backend_engineer", agent_state "ready" 3);
          ("infrastructure_guardian", agent_state "ready" 2);
          ("security_reviewer", agent_state "ready" 2);
          ("test_engineer", agent_state "ready" 3)] |}.

Definition _validate_request (self : t) (request : pydict) : pyval :=
  let required := ["type"; "action"; "description"] in
  match first_missing required request with
  | Some field =>
      PDict [("valid", PBool false);
             ("error", PStr ("Missing field: " +++ field))]
  | None =>
      PDict [("valid", PBool true); ("request_structure", PStr "valid")]
  end.

Definition _validate_prd (self : t) (prd : pyval) : pyval :=
  if negb (truthy prd) then
    PDict [("valid", PBool false); ("error", PStr "PRD not provided")]
  else
    PDict [("valid", PBool true); ("prd_structure", PStr "valid")].

Definition _create_execution_plan (self : t) (request : pydict) (prd : pyval)
  : pyval :=
  PDict
    [("features_to_build", PInt 4);
     ("estimated_duration_hours", PInt 160);
     ("parallel_tracks", PInt 3);
     ("dependencies",
      PList
        [PStr "Database schema → Backend API → Frontend UI";
         PStr "Auth service → Protected pages → Tests";
         PStr "Blog feature → SEO optimization → Content"]);
     ("critical_path", PStr "Database Design → Auth Service → Core APIs");
     ("bottlenecks", PList [])].

(** One entry of an agent's task list. *)
Definition task (name priority : string) (estimated_hours : Z)
  (dependencies : list string) : pyval :=
  PDict
    [("task", PStr name);
     ("priority", PStr priority);
     ("estimated_hours", PInt estimated_hours);
     ("dependencies", PList (map PStr dependencies))].

Definition _assign_work (self : t) (plan : pyval) : pyval :=
  PDict
    [("frontend_engineer",
      PList
        [task "Homepage (P0)" "high" 16 [];
         task "Authentication UI (P0)" "high" 12 ["Backend: Auth API"];
         task "Dashboard (P1)" "medium" 20 ["Backend: Analytics API"]]);
     ("backend_engineer",
      PList
        [task "Database Schema" "critical" 8 [];
         task "Authentication API (P0)" "high" 12 ["Database Schema"];
         task "Blog API (P2)" "medium" 16 ["Database Schema"]]);
     ("test_engineer",
      PList
        [task "Unit tests" "high" 24 ["Implementation"];
         task "Integration tests" "high" 16 ["Implementation"];
         task "E2E tests" "medium" 20 ["Integration tests"]]);
     ("infrastructure_guardian",
      PList
        [task "Terraform setup" "high" 20 [];
         task "CI/CD pipelines" "high" 16 ["Terraform setup"]]);
     ("security_reviewer",
      PList
        [task "Code audit" "high" 12 ["Implementation"];
         task "Dependency scanning" "high" 4 []])].

Definition _create_test_plan (self : t) (plan : pyval) : pyval :=
  PDict
    [("unit_tests",
      PDict [("target_coverage", PInt 80); ("estimated_tests", PInt 150)]);
     ("integration_tests",
      PDict [("target_coverage", PInt 70); ("estimated_tests", PInt 40)]);
     ("e2e_tests",
      PDict [("critical_flows", PInt 12); ("estimated_tests", PInt 25)]);
     ("performance_tests",
      PDict [("lighthouse_target", PInt 90);
             ("bundle_size_limit_kb", PInt 250)]);
     ("accessibility_tests",
      PDict [("standard", PStr "WCAG 2.1 AA"); ("automated_tests", PInt 50)])].

Definition _get_review_checklist (self : t) : pyval :=
  PList
    [PStr "✓ Code review - All PRs reviewed and approved";
     PStr "✓ Test coverage - Minimum 80% coverage met";
     PStr "✓ Performance - Lighthouse > 90";
     PStr "✓ Security - No vulnerabilities detected";
     PStr "✓ Accessibility - WCAG 2.1 AA compliant";
     PStr "✓ SEO - All meta tags and structured data present";
     PStr "✓ Documentation - API and code documented";
     PStr "✓ Breaking changes - None or properly documented";
     PStr "✓ Database migrations - All migrations tested";
     PStr "✓ Deployment plan - Ready for production"].

Definition _create_deployment_strategy (self : t) (plan : pyval) : pyval :=
  PDict
    [("strategy", PStr "blue_green");
     ("stages",
      PList
        [PDict
           [("stage", PStr "staging");
            ("health_checks",
             PList [PStr "API endpoints"; PStr "Database connectivity"]);
            ("smoke_tests", PInt 15);
            ("validation_time_minutes", PInt 30)];
         PDict
           [("stage", PStr "production");
            ("gradual_rollout",
             PDict
               [("percentage", PList [PInt 10; PInt 50; PInt 100]);
                ("interval_minutes", PInt 30)]);
            ("rollback_plan", PStr "Automatic on health check failure");
            ("monitoring",
             PList
               [PStr "Error rates"; PStr "Performance metrics";
                PStr "User impact"])]]);
     ("estimated_deployment_time_minutes", PInt 60);
     ("downtime_required", PInt 0)].

(** [str(uuid.uuid4())[:8]]; [uuid4] is the text of the identifier drawn
    for this call, hexadecimal digits and hyphens, one byte each. *)
Definition _generate_id (self : t) (uuid4 : string) : string :=
  String.substring 0 8 uuid4.

(** The dictionary returned when a validation fails. *)
Definition rejected (self : t) (validation : pyval) : pyval :=
  PDict
    [("valid", PBool false);
     ("error", validation);
     ("timestamp", PStr (timestamp self))].

(** [orchestrate], together with the list [execution_plan["phases"]] as it
    stands when the method returns. *)
Definition orchestrate_run (self : t) (uuid4 : string) (request : pydict)
  : result (pyval * list pyval) :=
  let request_id := _generate_id self uuid4 in
  let phases := [] in
  (* Phase 1: Validate request *)
  let request_validation := _validate_request self request in
  valid <- py_getitem request_validation "valid" ;;
  if negb (truthy valid) then Ok (rejected self request_validation, phases)
  else
  let phases :=
    phases ++ [PDict [("name", PStr (phase_value VALIDATE_REQUEST));
                      ("status", PStr "completed");
                      ("result", request_validation)]] in
  (* Phase 2: Validate PRD *)
  let prd_validation := _validate_prd self (dict_get "prd" request) in
  valid <- py_getitem prd_validation "valid" ;;
  if negb (truthy valid) then Ok (rejected self prd_validation, phases)
  else
  let phases :=
    phases ++ [PDict [("name", PStr (phase_value VALIDATE_PRD));
                      ("status", PStr "completed");
                      ("result", prd_validation)]] in
  (* Phase 3: Planning *)
  let plan := _create_execution_plan self request prd_validation in
  let phases :=
    phases ++ [PDict [("name", PStr (phase_value PLAN));
                      ("status", PStr "ready");
                      ("plan", plan)]] in
  (* Phase 4: Parallel implementation assignment *)
  let assignments := _assign_work self plan in
  let phases :=
    phases ++ [PDict [("name", PStr (phase_value IMPLEMENT));
                      ("status", PStr "pending");
                      ("assignments", assignments)]] in
  (* Phase 5: Testing *)
  let test_plan := _create_test_plan self plan in
  let phases :=
    phases ++ [PDict [("name", PStr (phase_value TEST));
                      ("status", PStr "pending");
                      ("plan", test_plan)]] in
  (* Phase 6: Quality review *)
  let phases :=
    phases ++ [PDict [("name", PStr (phase_value REVIEW));
                      ("status", PStr "pending");
                      ("checklist", _get_review_checklist self)]] in
  (* Phase 7: Deployment *)
  let deployment_strategy := _create_deployment_strategy self plan in
  let phases :=
    phases ++ [PDict [("name", PStr (phase_value DEPLOY));
                      ("status", PStr "pending");
                      ("strategy", deployment_strategy)]] in
  let execution_plan :=
    PDict [("request_id", PStr request_id);
           ("timestamp", PStr (timestamp self));
           ("phases", PList phases)] in
  Ok (PDict
        [("valid", PBool true);
         ("execution_plan", execution_plan);
         ("agent_assignments", assignments);
         ("ready_for_implementation", PBool true);
         ("timestamp", PStr (timestamp self))],
      phases).

Definition orchestrate (self : t) (uuid4 : string) (request : pydict)
  : result pyval :=
  run <- orchestrate_run self uuid4 request ;;
  Ok (fst run).

End Orchestrator.

(** * Vocabulary of the properties *)

(** The predicates, the expected answers and the sample documents that the
    statements below are written with. *)

(** ** For the performance guard *)

Module PerformanceGuardSpec.
Import PerformanceGuard.

Definition is_number (v : pyval) : bool :=
  match v with
  | PBool _ | PInt _ | PFloat _ => true
  | _ => false
  end.

(** A group of metrics: a dictionary of numbers. *)
Definition group_typed (v : pyval) : bool :=
  match v with
  | PDict d => forallb (fun kv => is_number (snd kv)) d
  | _ => false
  end.

(** A metrics document whose groups, when present, are dictionaries of
    numbers. *)
Definition metrics_typed (metrics : pydict) : bool :=
  forallb
    (fun group =>
       negb (has_key group metrics) || group_typed (dict_get group metrics))
    ["lighthouse"; "core_web_vitals"; "bundle_sizes"; "network"].

(** The computation returns, unless an integer is too large for a float
    ([OverflowError]) or for its decimal text ([ValueError]). *)
Definition returns_unless_too_large {A : Type} (c : result A) : Prop :=
  (exists a, c = Ok a) \/ c = Raise OverflowError \/ c = Raise ValueError.

(** The violation reported for a JavaScript bundle of 330 KB. *)
Definition javascript_330_violation : pyval :=
  PDict
    [("type", PStr "critical");
     ("metric", PStr "Javascript bundle");
     ("value", PInt 330);
     ("budget", PInt 300);
     ("unit", PStr "KB");
     ("percentage", PFloat (Float64.of_Z 110));
     ("message", PStr "javascript size (330KB) exceeds budget (300KB)")].

(** The severities of a list of violations. *)
Definition severities (issues : list pyval) : list (option pyval) :=
  map (field "type") issues.

(** The exact value of a finite float is [m * 2 ^ e]; [tenfold_is f n]
    says that ten times the value of [f] is the integer [n]. *)
Definition tenfold_is (size : pyval) (n : Z) : Prop :=
  match size with
  | PInt z => (10 * z = n)%Z
  | PFloat (S754_finite false m e) => (10 * Zpos m = n * 2 ^ (- e))%Z
  | _ => False
  end.

(** The float written [82.5]. *)
Definition float_82_5 : spec_float :=
  Float64.div (Float64.of_Z 165) (Float64.of_Z 2).

(** The sizes that are exactly 110% of the budget of their asset type. *)
Definition sizes_at_110_percent : list (string * pyval) :=
  [("javascript", PInt 330);
   ("css", PFloat float_82_5);
   ("images", PInt 1100);
   ("fonts", PInt 110)].

(** The severity the rule [size > budget], [percentage > 110] stands for
    when the percentage is taken exactly: none up to the budget, warning up
    to 110% of it, critical beyond. *)
Definition exact_severity (budget size : Z) : list (option pyval) :=
  if (size <=? budget)%Z then []
  else if (10 * size <=? 11 * budget)%Z then [Some (PStr "warning")]
  else [Some (PStr "critical")].

(** The severities [_check_bundle_sizes] reports for one integer size. *)
Definition reported_severity (self : t) (asset_type : string) (size : Z)
  : option (list (option pyval)) :=
  match _check_bundle_sizes (fun _ => "") self
          (PDict [(asset_type, PInt size)]) with
  | Ok issues => Some (severities issues)
  | Raise _ => None
  end.

(** The integers [lo], [lo + 1], ..., [lo + n - 1]. *)
Fixpoint Z_range (lo : Z) (n : nat) : list Z :=
  match n with
  | O => []
  | S n' => lo :: Z_range (lo + 1) n'
  end.

(** On the integer sizes from 0 to [n - 1] the reported severity is the
    exact one, but at exactly 110% of the budget, where it is critical. *)
Definition scan_agrees (self : t) (asset_type : string) (budget : Z)
  (n : nat) : bool :=
  forallb
    (fun size =>
       match reported_severity self asset_type size with
       | Some reported =>
           if (10 * size =? 11 * budget)%Z
           then match reported with
                | [Some (PStr "critical")] => true
                | _ => false
                end
           else match reported, exact_severity budget size with
                | [], [] => true
                | [Some (PStr a)], [Some (PStr b)] => String.eqb a b
                | _, _ => false
                end
       | None => false
       end)
    (Z_range 0 n).

(** A slow first byte: the one rule with a warning severity of its own. *)
Definition slow_ttfb : pydict := [("network", PDict [("ttfb", PInt 250)])].

(** The issue has the given severity. *)
Definition has_severity (severity : string) (issue : pyval) : Prop :=
  field "type" issue = Some (PStr severity).

(** [v > budget], false where the comparison is not defined. *)
Definition exceeds (v : pyval) (budget : pynum) : bool :=
  match py_gt v budget with
  | Ok over => over
  | Raise _ => false
  end.

(** The entry has a budget in the table and its value exceeds it. *)
Definition over_budget (tbl : list (string * Z)) (entry : string * pyval)
  : bool :=
  match table_find (fst entry) tbl with
  | Some budget => exceeds (snd entry) (NInt budget)
  | None => false
  end.

(** The key of the entry has a budget in the table. *)
Definition budgeted (tbl : list (string * Z)) (entry : string * pyval)
  : bool :=
  table_has (fst entry) tbl.

(** What an issue says it measured: its [metric] and its [value]. *)
Definition measured (issue : pyval) : option pyval * option pyval :=
  (field "metric" issue, field "value" issue).

(** An integer score below 90. *)
Definition low_score (entry : string * pyval) : bool :=
  match snd entry with
  | PInt z => (z <? 90)%Z
  | _ => false
  end.

(** The keys [_check_core_web_vitals] reads, with the name it reports them
    under and the largest integer that is within the budget. *)
Definition cwv_limits : list (string * string * Z) :=
  [("fcp", "First Contentful Paint", 1500%Z);
   ("lcp", "Largest Contentful Paint", 2500%Z);
   ("tti", "Time to Interactive", 3500%Z);
   ("cls", "Cumulative Layout Shift", 0%Z)].

(** The integer under the key is above the limit. *)
Definition above_limit (d : pydict) (row : string * string * Z) : bool :=
  let '(key, _, limit) := row in
  match lookup key d with
  | Some (PInt z) => (z >? limit)%Z
  | _ => false
  end.

(** The four groups of a metrics document. *)
Definition groups : list string :=
  ["lighthouse"; "core_web_vitals"; "bundle_sizes"; "network"].

(** The issues of a group: those of its check when the group is present. *)
Definition group_issues (check : pyval -> result (list pyval)) (key : string)
  (metrics : pydict) : result (list pyval) :=
  if has_key key metrics then check (dict_get key metrics) else Ok [].

(** The exceptions the guard can end with. *)
Definition guard_exception (e : exn) : Prop :=
  e = TypeError \/ e = AttributeError \/ e = OverflowError \/ e = ValueError.

(** The computation ends with an answer or one of these exceptions. *)
Definition guarded {A : Type} (c : result A) : Prop :=
  forall e, c = Raise e -> guard_exception e.

(** Bundle sizes with an entry that has no budget. *)
Definition annotated_sizes : pydict :=
  [("javascript", PInt 400); ("notes", PStr "n/a"); ("css", PInt 10)].

(** Scores under a key that is no Lighthouse category. *)
Definition scores_with_pwa : pydict :=
  [("performance", PInt 85); ("pwa", PInt 40); ("seo", PInt 95)].

(** Web vitals given in another order than the guard reads them. *)
Definition shuffled_vitals : pydict :=
  [("cls", PInt 1); ("fcp", PInt 1500); ("lcp", PInt 2501)].

(** A document with a group that is no dictionary. *)
Definition scores_as_list : pydict := [("lighthouse", PList [PInt 50])].

(** A time to first byte of 4301 digits, one more than a message can
    quote. *)
Definition endless_ttfb : pydict :=
  [("network", PDict [("ttfb", PInt (10 ^ 4300))])].

End PerformanceGuardSpec.

(** ** For the PRD validator *)

Module PRDValidatorSpec.
Import PRDValidator.

(** An issue that is no report of a missing section. *)
Definition not_section_issue (issue : string) : Prop :=
  String.prefix "Missing section: " issue = false.

(** The values on which [k in v] is defined. *)
Definition container (v : pyval) : bool :=
  match v with
  | PDict _ | PList _ | PStr _ => true
  | _ => false
  end.

(** A feature list the validator can go through: a false value, or a
    container whose entries are containers. *)
Definition features_typed (v : pyval) : bool :=
  negb (truthy v)
  || match v with
     | PList l => forallb container l
     | PDict _ | PStr _ => true
     | _ => false
     end.

(** A document whose [features], [success_metrics] and [constraints], when
    present, have the types the validator can check. *)
Definition prd_typed (prd : pydict) : bool :=
  (negb (has_key "features" prd)
   || features_typed (dict_get "features" prd))
  && (negb (has_key "success_metrics" prd)
      || container (dict_get "success_metrics" prd))
  && (negb (has_key "constraints" prd)
      || container (dict_get "constraints" prd)).

(** The required fields an entry lacks, in the order of the required list. *)
Definition missing_fields (d : pydict) : list string :=
  filter (fun f => negb (has_key f d)) required_feature_fields.

(** The issues of the entries of a feature list, the first entry having
    index [i]. *)
Fixpoint feature_issues_from (i : nat) (entries : list pydict) : list string :=
  match entries with
  | [] => []
  | d :: rest =>
      map (missing_feature_field_msg i) (missing_fields d)
      ++ feature_issues_from (S i) rest
  end.

Definition is_digit (c : ascii) : bool :=
  let n := nat_of_ascii c in (48 <=? n)%nat && (n <=? 57)%nat.

Fixpoint all_digits (s : string) : bool :=
  match s with
  | EmptyString => true
  | String c s' => is_digit c && all_digits s'
  end.

(** A document with one section, an incomplete feature and one metric. *)
Definition draft_prd : pydict :=
  [("Timeline", PStr "Q3");
   ("features", PList [PDict [("name", PStr "Homepage")]]);
   ("success_metrics", PDict [("quality", PInt 80)])].

(** A document with the eight sections and nothing else. *)
Definition sections_only_prd : pydict :=
  map (fun section => (section, PStr "..."))
    (required_sections (init default_prd_path "")).

(** Two entries that each lack three of the four fields. *)
Definition two_thin_features : list pydict :=
  [[("name", PStr "Homepage")]; [("priority", PStr "P0")]].

(** [k in v], false where the test is not defined. *)
Definition holds (v : pyval) (k : string) : bool :=
  match py_in k v with
  | Ok present => present
  | Raise _ => false
  end.

(** Every name of the list is in [v]. *)
Definition covers (required : list string) (v : pyval) : bool :=
  forallb (holds v) required.

(** A feature list with no issue: a true value whose entries all have the
    four required fields. *)
Definition features_complete (features : pyval) : bool :=
  truthy features
  && match py_iter features with
     | Ok entries => forallb (covers required_feature_fields) entries
     | Raise _ => false
     end.

(** The check of an optional part passes, or the part is absent. *)
Definition part_ok (key : string) (ok : pyval -> bool) (prd : pydict) : bool :=
  negb (has_key key prd) || ok (dict_get key prd).

(** A document with no issue. *)
Definition prd_complete (self : t) (prd : pydict) : bool :=
  forallb (fun section => has_key section prd) (required_sections self)
  && part_ok "features" features_complete prd
  && part_ok "success_metrics" (covers required_metric_categories) prd
  && part_ok "constraints" (covers required_constraint_categories) prd.

(** The issues of an optional part: those of its check when the key is
    present. *)
Definition part_issues (key : string) (check : pyval -> result (list string))
  (prd : pydict) : result (list string) :=
  if has_key key prd then check (dict_get key prd) else Ok [].

(** A document with every section, one complete feature, the five metric
    categories and the four constraint categories. *)
Definition complete_prd : pydict :=
  sections_only_prd
  ++ [("features",
       PList
         [PDict
            [("name", PStr "Homepage");
             ("priority", PStr "P0");
             ("description", PStr "Landing page");
             ("acceptance_criteria", PList [PStr "Loads in 2 s"])]]);
      ("success_metrics",
       PDict
         (map (fun category => (category, PStr "..."))
            required_metric_categories));
      ("constraints",
       PDict
         (map (fun category => (category, PStr "..."))
            required_constraint_categories))].

(** A document with every section and an empty feature list. *)
Definition prd_without_features : pydict :=
  sections_only_prd ++ [("features", PList [])].

End PRDValidatorSpec.

(** ** For the request validators and the orchestrator *)

Module OrchestratorSpec.
Import Orchestrator.

(** The three fields [_validate_request] looks for. *)
Definition required : list string := ["type"; "action"; "description"].

Definition request_ok : pyval :=
  PDict [("valid", PBool true); ("request_structure", PStr "valid")].

Definition prd_ok : pyval :=
  PDict [("valid", PBool true); ("prd_structure", PStr "valid")].

Definition prd_missing : pyval :=
  PDict [("valid", PBool false); ("error", PStr "PRD not provided")].

(** One record of [execution_plan["phases"]]. *)
Definition phase_record (phase : WorkflowPhase) (status key : string)
  (content : pyval) : pyval :=
  PDict [("name", PStr (phase_value phase));
         ("status", PStr status);
         (key, content)].

(** The seven records of an accepted request, each content produced by
    the method of the orchestrator that [orchestrate] calls for it. *)
Definition accepted_phases (self : t) : list pyval :=
  let plan := _create_execution_plan self [] prd_ok in
  [phase_record VALIDATE_REQUEST "completed" "result" request_ok;
   phase_record VALIDATE_PRD "completed" "result" prd_ok;
   phase_record PLAN "ready" "plan" plan;
   phase_record IMPLEMENT "pending" "assignments" (_assign_work self plan);
   phase_record TEST "pending" "plan" (_create_test_plan self plan);
   phase_record REVIEW "pending" "checklist" (_get_review_checklist self);
   phase_record DEPLOY "pending" "strategy"
     (_create_deployment_strategy self plan)].

(** The answer to an accepted request. *)
Definition accepted (self : t) (request_id : string) : pyval :=
  PDict
    [("valid", PBool true);
     ("execution_plan",
      PDict [("request_id", PStr request_id);
             ("timestamp", PStr (timestamp self));
             ("phases", PList (accepted_phases self))]);
     ("agent_assignments",
      _assign_work self (_create_execution_plan self [] prd_ok));
     ("ready_for_implementation", PBool true);
     ("timestamp", PStr (timestamp self))].

(** The type of the request is none of the four valid types. *)
Definition unknown_type (request : pydict) : Prop :=
  existsb (eq_str (dict_get "type" request))
    UserPromptSubmitValidator.valid_types = false.

(** A request of the unknown type [chore], with a PRD. *)
Definition chore_request : pydict :=
  [("type", PStr "chore");
   ("action", PStr "add");
   ("description", PStr "x");
   ("prd", PDict [("Timeline", PStr "Q3")])].

(** The text under [error] of an answer. *)
Definition error_text (answer : pyval) : string :=
  match field "error" answer with
  | Some (PStr s) => s
  | _ => ""
  end.

(** The answer names the field [f] in its error. *)
Definition describes (answer : pyval) (f : string) : bool :=
  contains f (error_text answer).

(** A request with a type and nothing else. *)
Definition type_only_request : pydict := [("type", PStr "feature")].

(** A well-formed request that carries no [prd]. *)
Definition request_without_prd : pydict :=
  [("type", PStr "feature"); ("action", PStr "add");
   ("description", PStr "x")].

(** An accepted request that shares no value with [chore_request]. *)
Definition bugfix_request : pydict :=
  [("description", PStr "crash on login");
   ("prd", PList [PInt 1]);
   ("action", PStr "fix");
   ("type", PStr "bugfix")].

(** The request has the three fields [_validate_request] looks for. *)
Definition has_fields (request : pydict) : bool :=
  forallb (fun f => has_key f request) required.

(** The number of phase records [orchestrate] has written when it
    returns. *)
Definition phases_written (request : pydict) : nat :=
  if has_fields request
  then if truthy (dict_get "prd" request) then 7 else 1
  else 0.

(** The statuses of the phases of an accepted request. *)
Definition accepted_statuses : list string :=
  ["completed"; "completed"; "ready"; "pending"; "pending"; "pending";
   "pending"].

(** A request whose PRD has a title and nothing the validator asks for. *)
Definition request_with_thin_prd : pydict :=
  [("type", PStr "feature");
   ("action", PStr "add");
   ("description", PStr "x");
   ("prd", PDict [("title", PStr "Shop")])].

End OrchestratorSpec.

(** ** For the request hook *)

Module RequestHookSpec.
Import UserPromptSubmitValidator.

(** The request has the three required fields. *)
Definition has_required (request : pydict) : bool :=
  forallb (fun f => has_key f request) required_fields.

(** The type of the request is one of the four valid types. *)
Definition known_type (request : pydict) : bool :=
  existsb (eq_str (dict_get "type" request)) valid_types.

(** The context the hook hands to the orchestrator. *)
Definition context (self : t) : pyval :=
  PDict
    [("prd", _load_prd_summary self);
     ("constraints", _load_constraints self);
     ("quality_gates", _get_quality_gates self)].

(** The keys of a dictionary, in order. *)
Definition keys (d : pydict) : list string := map fst d.

(** A request the hook accepts, with a context of the caller's own. *)
Definition feature_request : pydict :=
  [("type", PStr "feature");
   ("injected_context", PStr "mine");
   ("action", PStr "add");
   ("description", PStr "x")].

End RequestHookSpec.

(** * Properties *)

(** ** The exception monad and the loops *)

Lemma bind_Ok {A B : Type} (c : result A) (k : A -> result B) (b : B) :
  bind c k = Ok b -> exists a, c = Ok a /\ k a = Ok b.
Proof.
  destruct c as [a | e]; simpl; intros H.
  - exists a. split; [reflexivity | exact H].
  - discriminate H.
Qed.

(** Splits every hypothesis [bind c k = Ok b] into its two steps. *)
Ltac inv_bind :=
  repeat match goal with
    | H : bind _ _ = Ok _ |- _ =>
        let a := fresh "a" in
        let Ha := fresh "Hstep" in
        let Hk := fresh "Hrest" in
        apply bind_Ok in H; destruct H as (a & Ha & Hk)
    | H : Ok _ = Ok _ |- _ => injection H as H; try subst
    | H : Raise _ = Ok _ |- _ => discriminate H
    end.

Lemma for_extend_Forall {A B : Type} (P : B -> Prop)
  (body : A -> result (list B)) (xs : list A) :
  (forall x ys, In x xs -> body x = Ok ys -> Forall P ys) ->
  forall zs, for_extend body xs = Ok zs -> Forall P zs.
Proof.
  induction xs as [| x xs IH]; simpl; intros Hbody zs Hrun.
  - inv_bind. constructor.
  - inv_bind. apply Forall_app. split.
    + eapply Hbody; [left; reflexivity | eassumption].
    + apply IH; [| assumption].
      intros y ys Hy. apply Hbody. right. exact Hy.
Qed.

(** A loop whose body cannot fail is a [flat_map]. *)
Lemma for_extend_pure {A B : Type} (body : A -> result (list B))
  (f : A -> list B) (xs : list A) :
  (forall x, In x xs -> body x = Ok (f x)) ->
  for_extend body xs = Ok (flat_map f xs).
Proof.
  induction xs as [| x xs IH]; simpl; intros Hbody.
  - reflexivity.
  - rewrite Hbody by (left; reflexivity). simpl.
    rewrite IH by (intros y Hy; apply Hbody; right; exact Hy).
    reflexivity.
Qed.

Lemma filter_none {A : Type} (p : A -> bool) (l : list A) :
  (forall x, In x l -> p x = false) -> filter p l = [].
Proof.
  induction l as [| x l IH]; simpl; intros H.
  - reflexivity.
  - rewrite (H x) by (left; reflexivity).
    apply IH. intros y Hy. apply H. right. exact Hy.
Qed.

Lemma has_key_lookup (k : string) (d : pydict) :
  has_key k d = true <-> exists v, lookup k d = Some v.
Proof.
  unfold has_key. destruct (lookup k d) as [v |]; split.
  - intros _. exists v. reflexivity.
  - reflexivity.
  - discriminate.
  - intros (v & Hv). discriminate Hv.
Qed.

(** A string that is not empty has a first character. *)
Lemma chars_String (c : ascii) (s : string) :
  exists g gs, chars (String c s) = g :: gs.
Proof.
  cbn [chars]. destruct (chars s) as [| g gs].
  - eexists. eexists. reflexivity.
  - destruct (starts_with_continuation s); eexists; eexists; reflexivity.
Qed.

(** ** The performance guard *)

Module PerformanceGuardFacts.
Import PerformanceGuard PerformanceGuardSpec.

Section Guard.

Variable repr : pyval -> string.

(** The answer of [validate_performance] always has the four fields of
    the source, and the list under [warnings] is the empty list the method
    starts with. *)
Lemma validate_performance_shape (self : t) (metrics : pydict) (r : pyval) :
  validate_performance repr self metrics = Ok r ->
  exists violations,
    r = PDict
          [("valid", PBool (List.length violations =? 0)%nat);
           ("violations", PList violations);
           ("warnings", PList []);
           ("timestamp", PStr (timestamp self))].
Proof.
  unfold validate_performance. intros H. inv_bind.
  eexists. reflexivity.
Qed.

(** *** When the guard returns *)

Lemma returns_Ok {A : Type} (a : A) : returns_unless_too_large (Ok a).
Proof. left. exists a. reflexivity. Qed.

Lemma returns_bind {A B : Type} (c : result A) (k : A -> result B) :
  returns_unless_too_large c ->
  (forall a, c = Ok a -> returns_unless_too_large (k a)) ->
  returns_unless_too_large (bind c k).
Proof.
  intros [(a & ->) | [-> | ->]] Hk.
  - apply Hk. reflexivity.
  - right. left. reflexivity.
  - right. right. reflexivity.
Qed.

Lemma for_extend_returns {A B : Type} (body : A -> result (list B))
  (xs : list A) :
  (forall x, In x xs -> returns_unless_too_large (body x)) ->
  returns_unless_too_large (for_extend body xs).
Proof.
  induction xs as [| x xs IH]; simpl; intros Hbody.
  - apply returns_Ok.
  - apply returns_bind; [apply Hbody; left; reflexivity |].
    intros here _. apply returns_bind.
    + apply IH. intros y Hy. apply Hbody. right. exact Hy.
    + intros rest _. apply returns_Ok.
Qed.

Lemma as_num_number (v : pyval) :
  is_number v = true -> exists n, as_num v = Ok n.
Proof.
  destruct v; try discriminate; intros _; eexists; reflexivity.
Qed.

Lemma py_lt_number (v : pyval) (n : pynum) :
  is_number v = true -> exists b, py_lt v n = Ok b.
Proof.
  intros H. destruct (as_num_number v H) as (a & Ha).
  unfold py_lt. rewrite Ha. eexists. reflexivity.
Qed.

Lemma py_gt_number (v : pyval) (n : pynum) :
  is_number v = true -> exists b, py_gt v n = Ok b.
Proof.
  intros H. destruct (as_num_number v H) as (a & Ha).
  unfold py_gt. rewrite Ha. eexists. reflexivity.
Qed.

Lemma to_float_returns (n : pynum) : returns_unless_too_large (to_float n).
Proof.
  destruct n as [z | f]; simpl.
  - destruct (Float64.is_inf _); [right; left | left; eexists]; reflexivity.
  - apply returns_Ok.
Qed.

(** Division by a budget: the divisor is an integer that is not zero and
    whose float is not zero. *)
Lemma py_truediv_returns (v : pyval) (b : Z) :
  is_number v = true ->
  (b =? 0)%Z = false ->
  (exists y, to_float (NInt b) = Ok y /\ Float64.is_zero y = false) ->
  returns_unless_too_large (py_truediv v (NInt b)).
Proof.
  intros Hv Hb (y & Hy & Hzero). unfold py_truediv.
  destruct (as_num_number v Hv) as ([x | x] & ->); cbn [bind].
  - rewrite Hb.
    destruct (Float64.is_inf _); [right; left | left; eexists]; reflexivity.
  - rewrite Hy. cbn [to_float bind]. rewrite Hzero. apply returns_Ok.
Qed.

Lemma float_mul_returns (f : spec_float) :
  exists p, float_mul f (NInt 100) = Ok p.
Proof. eexists. reflexivity. Qed.

Lemma table_find_In {A : Type} (k : string) (tbl : list (string * A)) (a : A) :
  table_find k tbl = Some a -> In a (map snd tbl).
Proof.
  induction tbl as [| [k' a'] tbl IH]; simpl; intros H.
  - discriminate H.
  - destruct (String.eqb k k').
    + injection H as ->. left. reflexivity.
    + right. apply IH. exact H.
Qed.

Lemma group_typed_items (v : pyval) :
  group_typed v = true ->
  exists d, v = PDict d /\ forall k x, In (k, x) d -> is_number x = true.
Proof.
  destruct v; try discriminate. intros H. exists d. split; [reflexivity |].
  intros k x Hin.
  exact (proj1 (forallb_forall _ d) H (k, x) Hin).
Qed.

Lemma lookup_In (k : string) (d : pydict) (x : pyval) :
  lookup k d = Some x -> exists k', In (k', x) d.
Proof.
  induction d as [| [k' v] d IH]; simpl; intros H.
  - discriminate H.
  - destruct (String.eqb k k').
    + injection H as ->. exists k'. left. reflexivity.
    + destruct (IH H) as (k'' & Hin). exists k''. right. exact Hin.
Qed.

Lemma py_str_returns (v : pyval) : returns_unless_too_large (py_str repr v).
Proof.
  destruct v as [| [|] | z | | | |]; try apply returns_Ok.
  cbn [py_str]. destruct (_ <? _)%nat; [right; right; reflexivity |].
  apply returns_Ok.
Qed.

(** The text of a violation: two values formatted one after the other. *)
Lemma message_returns {A : Type} (v w : pyval) (k : string -> string -> A) :
  returns_unless_too_large
    (a <- py_str repr v ;; b <- py_str repr w ;; Ok (k a b)).
Proof.
  apply returns_bind; [apply py_str_returns |].
  intros a _. apply returns_bind; [apply py_str_returns |].
  intros b _. apply returns_Ok.
Qed.

Lemma _check_lighthouse_returns (now : string) (scores : pyval) :
  group_typed scores = true ->
  returns_unless_too_large (_check_lighthouse repr (init now) scores).
Proof.
  intros H. destruct (group_typed_items _ H) as (d & -> & Hnum).
  unfold _check_lighthouse. cbn [py_items bind].
  apply for_extend_returns. intros [category score] Hin.
  pose proof (Hnum _ _ Hin) as Hscore.
  destruct (py_lt_number score (NInt 90) Hscore) as (below & Hbelow).
  cbn [init budgets lighthouse_min_score]. rewrite Hbelow. cbn [bind].
  destruct below; [| apply returns_Ok].
  apply returns_bind.
  - apply py_truediv_returns; [exact Hscore | reflexivity |].
    eexists. split; reflexivity.
  - intros q _. destruct (float_mul_returns q) as (p & ->). cbn [bind].
    apply message_returns.
Qed.

Lemma _check_core_web_vitals_returns (now : string) (cwv : pyval) :
  group_typed cwv = true ->
  returns_unless_too_large (_check_core_web_vitals repr (init now) cwv).
Proof.
  intros H. destruct (group_typed_items _ H) as (d & -> & Hnum).
  unfold _check_core_web_vitals. apply for_extend_returns.
  intros [metric_key metric_name] Hin. cbn [py_in bind py_getitem].
  unfold has_key. destruct (lookup metric_key d) as [value |] eqn:Hvalue;
    [| apply returns_Ok].
  cbn [bind].
  destruct (lookup_In _ _ _ Hvalue) as (k' & Hk').
  pose proof (Hnum _ _ Hk') as Hnumber.
  simpl in Hin.
  destruct Hin as [Hin | [Hin | [Hin | [Hin | []]]]];
    injection Hin as <- <-; cbn [init budgets core_web_vitals table_get
                                   table_find String.eqb Ascii.eqb Bool.eqb
                                   bind];
    match goal with
    | |- context [py_gt value ?n] =>
        destruct (py_gt_number value n Hnumber) as (over & ->)
    end;
    cbn [bind]; (destruct over; [apply message_returns | apply returns_Ok]).
Qed.

Lemma _check_bundle_sizes_returns (now : string) (sizes : pyval) :
  group_typed sizes = true ->
  returns_unless_too_large (_check_bundle_sizes repr (init now) sizes).
Proof.
  intros H. destruct (group_typed_items _ H) as (d & -> & Hnum).
  unfold _check_bundle_sizes. cbn [py_items bind].
  apply for_extend_returns. intros [asset_type size_kb] Hin.
  pose proof (Hnum _ _ Hin) as Hsize.
  unfold table_has, table_get.
  destruct (table_find asset_type _) as [budget |] eqn:Hbudget;
    [| apply returns_Ok].
  cbn [bind]. apply table_find_In in Hbudget. simpl in Hbudget.
  apply returns_bind.
  - destruct Hbudget as [<- | [<- | [<- | [<- | []]]]];
      (apply py_truediv_returns;
       [exact Hsize | reflexivity | eexists; split; reflexivity]).
  - intros q _. destruct (float_mul_returns q) as (p & ->). cbn [bind].
    destruct (py_gt_number size_kb (NInt budget) Hsize) as (over & ->).
    cbn [bind]. destruct over; [| apply returns_Ok].
    destruct (py_gt_number (PFloat p) (NInt 110) eq_refl) as (above & ->).
    cbn [bind]. apply message_returns.
Qed.

Lemma _check_network_returns (now : string) (network_metrics : pyval) :
  group_typed network_metrics = true ->
  returns_unless_too_large (_check_network repr (init now) network_metrics).
Proof.
  intros H. destruct (group_typed_items _ H) as (d & -> & Hnum).
  unfold _check_network. cbn [py_items bind].
  apply for_extend_returns. intros [metric_key value] Hin.
  pose proof (Hnum _ _ Hin) as Hvalue.
  unfold table_has, table_get.
  destruct (table_find metric_key _) as [budget |]; [| apply returns_Ok].
  cbn [bind].
  destruct (py_gt_number value (NInt budget) Hvalue) as (over & ->).
  cbn [bind]. destruct over; [apply message_returns | apply returns_Ok].
Qed.

Lemma extend_if_present_returns (key : string) (metrics : pydict)
  (check : pyval -> result (list pyval)) (violations : list pyval) :
  (has_key key metrics = true ->
   returns_unless_too_large (check (dict_get key metrics))) ->
  returns_unless_too_large (extend_if_present key metrics check violations).
Proof.
  unfold extend_if_present. destruct (has_key key metrics); intros H.
  - apply returns_bind; [apply H; reflexivity |].
    intros issues _. apply returns_Ok.
  - apply returns_Ok.
Qed.

(** On a document whose groups are dictionaries of numbers, the guard
    returns an answer; the exceptions left are the [OverflowError] of a
    percentage computed from an integer beyond the range of the floats and
    the [ValueError] of a message that quotes an integer of more than
    [int_max_str_digits] digits. *)
Lemma validate_performance_returns (now : string) (metrics : pydict) :
  metrics_typed metrics = true ->
  returns_unless_too_large (validate_performance repr (init now) metrics).
Proof.
  unfold metrics_typed. cbn [forallb]. intros H.
  repeat (apply andb_true_iff in H; destruct H as (?H & H)).
  unfold validate_performance.
  apply returns_bind.
  { apply extend_if_present_returns. intros Hk. rewrite Hk in H0.
    apply _check_lighthouse_returns. exact H0. }
  intros v1 _. apply returns_bind.
  { apply extend_if_present_returns. intros Hk. rewrite Hk in H1.
    apply _check_core_web_vitals_returns. exact H1. }
  intros v2 _. apply returns_bind.
  { apply extend_if_present_returns. intros Hk. rewrite Hk in H2.
    apply _check_bundle_sizes_returns. exact H2. }
  intros v3 _. apply returns_bind.
  { apply extend_if_present_returns. intros Hk. rewrite Hk in H3.
    apply _check_network_returns. exact H3. }
  intros v4 _. apply returns_Ok.
Qed.

End Guard.

(** C3.  Whatever the metrics, the [warnings] list of the answer of the
    performance guard is empty: in the answer of [validate_performance] it
    is the empty list, and the answer of [process] either carries that
    same list (budgets exceeded) or has no [warnings] field at all
    (budgets met).  The guard does answer when the groups of the document
    are dictionaries of numbers, short of an integer beyond the floats
    ([OverflowError]) or of more than 4300 digits ([ValueError]). *)
Theorem warnings_always_empty (repr : pyval -> string) (now : string)
  (metrics : pydict) :
  (forall r, validate_performance repr (init now) metrics = Ok r ->
             field "warnings" r = Some (PList []))
  /\ (forall r w, process repr (init now) metrics = Ok r ->
                  field "warnings" r = Some w -> w = PList [])
  /\ (metrics_typed metrics = true ->
      returns_unless_too_large (validate_performance repr (init now) metrics)).
Proof.
  split; [| split; [| apply validate_performance_returns]].
  - intros r H. apply validate_performance_shape in H.
    destruct H as (violations & ->). reflexivity.
  - intros r w H Hw. unfold process in H. inv_bind.
    apply validate_performance_shape in Hstep.
    destruct Hstep as (violations & ->).
    simpl in Hstep0. inv_bind.
    destruct (truthy _).
    + inv_bind. simpl in Hw. discriminate Hw.
    + simpl in Hrest0. inv_bind. simpl in Hw. congruence.
Qed.

(** C5.  With the JavaScript budget of 300 KB, the metrics
    [{"bundle_sizes": {"javascript": 330}}] give exactly one violation, of
    severity critical, with value 330, budget 300 and percentage 110.0;
    [process] passes that list on unchanged. *)
Theorem javascript_330_one_critical_violation (repr : pyval -> string)
  (now : string) :
  let metrics := [("bundle_sizes", PDict [("javascript", PInt 330)])] in
  table_find "javascript" (bundle_sizes (budgets (init now))) = Some 300%Z
  /\ validate_performance repr (init now) metrics
     = Ok (PDict
             [("valid", PBool false);
              ("violations", PList [javascript_330_violation]);
              ("warnings", PList []);
              ("timestamp", PStr now)])
  /\ (exists r, process repr (init now) metrics = Ok r
                /\ field "valid" r = Some (PBool false)
                /\ field "violations" r
                   = Some (PList [javascript_330_violation])).
Proof.
  cbv zeta. split; [reflexivity |]. split; [reflexivity |].
  eexists. split; [reflexivity |]. split; reflexivity.
Qed.

(** The percentage computed for 330 KB against 300 KB is the float next
    above 110, which rounds to 110.0 at one decimal. *)
Lemma percentage_of_330_over_300 :
  (q <- py_truediv (PInt 330) (NInt 300) ;; float_mul q (NInt 100))
  = Ok (S754_finite false (Pos.succ 7740561859543040) (-46))
  /\ Float64.of_Z 110 = S754_finite false 7740561859543040 (-46)
  /\ Float64.round1 (S754_finite false (Pos.succ 7740561859543040) (-46))
     = Float64.of_Z 110.
Proof. repeat split; reflexivity. Qed.

(** C4, on the code.  For each of the four asset types of the budget
    table, the size that is exactly 110% of the budget (ten times the size
    is eleven times the budget) is reported with severity critical, not
    warning: the quotient [size / budget] rounds to the float next above
    1.1, whose product with 100 is 110.00000000000001, and that is
    [> 110]. *)
Theorem bundle_size_at_110_percent_is_critical (repr : pyval -> string)
  (now : string) :
  Forall
    (fun '(asset_type, size_kb) =>
       (exists budget,
          table_find asset_type (bundle_sizes (budgets (init now)))
          = Some budget
          /\ tenfold_is size_kb (11 * budget))
       /\ (exists issues,
             _check_bundle_sizes repr (init now)
               (PDict [(asset_type, size_kb)])
             = Ok issues
             /\ severities issues = [Some (PStr "critical")]))
    sizes_at_110_percent.
Proof.
  repeat constructor;
    try (eexists; split; [reflexivity | reflexivity]).
Qed.

(** A size that is not above its budget is no violation. *)
Lemma bundle_size_within_budget (repr : pyval -> string) (now : string)
  (asset_type : string) (size_kb : pyval) (budget : Z)
  (issues : list pyval) :
  table_find asset_type (bundle_sizes (budgets (init now))) = Some budget ->
  py_gt size_kb (NInt budget) = Ok false ->
  _check_bundle_sizes repr (init now) (PDict [(asset_type, size_kb)])
  = Ok issues ->
  issues = [].
Proof.
  intros Hbudget Hnot. unfold _check_bundle_sizes, table_has, table_get.
  cbn [py_items bind for_extend]. rewrite Hbudget. cbn [bind].
  intros H. inv_bind.
  match goal with
  | Hgt : py_gt size_kb (NInt budget) = Ok ?b |- _ =>
      rewrite Hnot in Hgt; injection Hgt as <-
  end.
  inv_bind. rewrite app_nil_r. reflexivity.
Qed.

(** Away from the boundary the float percentage decides as the exact one
    does: for every integer size below 1200 KB and every asset type, the
    severity is none up to the budget, warning up to 110% and critical
    beyond; the sizes at exactly 110% are the ones that come out critical. *)
Lemma bundle_integer_sizes_scan (now : string) :
  Forall
    (fun '(asset_type, budget) =>
       scan_agrees (init now) asset_type budget 1200 = true)
    (bundle_sizes (budgets (init now))).
Proof.
  cbn [init budgets bundle_sizes].
  repeat (apply Forall_cons; [vm_compute; reflexivity |]).
  apply Forall_nil.
Qed.

Lemma warnings_always_empty_witness :
  exists r issue,
    validate_performance (fun _ => "") (init "2026-01-01T00:00:00") slow_ttfb
    = Ok r
    /\ field "violations" r = Some (PList [issue])
    /\ field "type" issue = Some (PStr "warning")
    /\ field "warnings" r = Some (PList []).
Proof.
  eexists. eexists.
  split; [reflexivity |]. split; [reflexivity |]. split; [reflexivity |].
  apply (proj1 (warnings_always_empty (fun _ => "") "2026-01-01T00:00:00"
                  slow_ttfb)).
  reflexivity.
Defined.

End PerformanceGuardFacts.

(** ** The PRD validator *)

Module PRDValidatorFacts.
Import PRDValidator PRDValidatorSpec.

Lemma append_inj_r (p a b : string) : p +++ a = p +++ b -> a = b.
Proof.
  induction p as [| c p IH]; simpl; intros H.
  - exact H.
  - injection H as H. apply IH. exact H.
Qed.

Lemma missing_section_msg_inj (a b : string) :
  missing_section_msg a = missing_section_msg b -> a = b.
Proof. apply append_inj_r. Qed.

Lemma missing_section_msg_prefix (s : string) :
  String.prefix "Missing section: " (missing_section_msg s) = true.
Proof. destruct s; reflexivity. Qed.

(** The first loop of [validate_prd] reports the absent sections, in the
    order of the required list. *)
Lemma missing_sections_filter (self : t) (prd : pydict) :
  missing_sections self prd
  = map missing_section_msg
      (filter (fun s => negb (has_key s prd)) (required_sections self)).
Proof.
  unfold missing_sections.
  induction (required_sections self) as [| s l IH]; simpl.
  - reflexivity.
  - rewrite IH. destruct (has_key s prd); reflexivity.
Qed.

Lemma report_absent_Forall (P : string -> Prop) (msg : string -> string)
  (required : list string) (v : pyval) (issues : list string) :
  (forall k, P (msg k)) ->
  report_absent msg required v = Ok issues -> Forall P issues.
Proof.
  intros Hmsg. unfold report_absent. apply for_extend_Forall.
  intros k ys _ H. inv_bind. destruct (negb a); inv_bind.
  - constructor; [apply Hmsg | constructor].
  - constructor.
Qed.

Lemma _validate_features_not_section (self : t) (features : pyval)
  (issues : list string) :
  _validate_features self features = Ok issues ->
  Forall not_section_issue issues.
Proof.
  unfold _validate_features. intros H. inv_bind.
  destruct a; inv_bind.
  - constructor; [reflexivity | constructor].
  - revert Hrest0. apply for_extend_Forall.
    intros [idx feature] ys _. apply report_absent_Forall.
    intros k. reflexivity.
Qed.

Lemma extend_if_present_app (key : string) (prd : pydict)
  (check : pyval -> result (list string)) (P : string -> Prop)
  (issues out : list string) :
  (forall v found, check v = Ok found -> Forall P found) ->
  extend_if_present key prd check issues = Ok out ->
  exists found, out = issues ++ found /\ Forall P found.
Proof.
  intros Hcheck. unfold extend_if_present.
  destruct (has_key key prd); intros H; inv_bind.
  - exists a. split; [reflexivity | eapply Hcheck; eassumption].
  - exists []. split; [symmetry; apply app_nil_r | constructor].
Qed.

(** The issues of [validate_prd] are the reports of the absent sections
    followed by issues of the three other checks. *)
Lemma validate_prd_issues (self : t) (prd : pydict) (answer : pyval) :
  validate_prd self prd = Ok answer ->
  exists rest,
    answer
    = PDict
        [("valid",
          PBool (List.length (missing_sections self prd ++ rest) =? 0)%nat);
         ("issues", PList (map PStr (missing_sections self prd ++ rest)));
         ("timestamp", PStr (timestamp self))]
    /\ Forall not_section_issue rest.
Proof.
  unfold validate_prd. intros H. inv_bind.
  apply extend_if_present_app with (P := not_section_issue) in Hstep;
    [| apply _validate_features_not_section].
  apply extend_if_present_app with (P := not_section_issue) in Hstep0;
    [| intros v found; apply report_absent_Forall; intros k; reflexivity].
  apply extend_if_present_app with (P := not_section_issue) in Hstep1;
    [| intros v found; apply report_absent_Forall; intros k; reflexivity].
  destruct Hstep as (f1 & -> & H1).
  destruct Hstep0 as (f2 & -> & H2).
  destruct Hstep1 as (f3 & -> & H3).
  exists (f1 ++ f2 ++ f3). split.
  - simpl. rewrite <- !app_assoc. reflexivity.
  - repeat (apply Forall_app; split); assumption.
Qed.

Lemma count_occ_map_filter (f : string -> string) (p : string -> bool)
  (l : list string) (s : string) :
  (forall a b, f a = f b -> a = b) ->
  NoDup l -> In s l ->
  count_occ string_dec (map f (filter p l)) (f s) = if p s then 1 else 0.
Proof.
  intros Hinj Hnd Hin.
  assert (Hout : forall l', ~ In s l' ->
            count_occ string_dec (map f (filter p l')) (f s) = 0).
  { intros l' Hs. apply count_occ_not_In. intros Hm.
    apply in_map_iff in Hm. destruct Hm as (x & Hx & Hxl).
    apply filter_In in Hxl. apply Hinj in Hx. subst x. tauto. }
  induction Hnd as [| x l Hx Hnd IH]; [destruct Hin |].
  destruct Hin as [-> | Hin].
  - simpl. destruct (p s); simpl.
    + destruct (string_dec (f s) (f s)) as [_ | Hne]; [| congruence].
      rewrite Hout by assumption. reflexivity.
    + apply Hout. assumption.
  - assert (Hxs : x <> s) by (intros ->; contradiction).
    simpl. destruct (p x); simpl.
    + destruct (string_dec (f x) (f s)) as [He | _].
      * apply Hinj in He. contradiction.
      * apply IH. assumption.
    + apply IH. assumption.
Qed.

Lemma required_sections_NoDup (path now : string) :
  NoDup (required_sections (init path now)).
Proof.
  simpl. repeat constructor; simpl; intuition discriminate.
Qed.

(** *** When [validate_prd] returns *)

Lemma for_extend_total {A B : Type} (body : A -> result (list B))
  (xs : list A) :
  (forall x, In x xs -> exists ys, body x = Ok ys) ->
  exists zs, for_extend body xs = Ok zs.
Proof.
  induction xs as [| x xs IH]; simpl; intros Hbody.
  - eexists. reflexivity.
  - destruct (Hbody x) as (ys & ->); [left; reflexivity |].
    destruct IH as (zs & ->);
      [intros y Hy; apply Hbody; right; exact Hy |].
    eexists. reflexivity.
Qed.

Lemma report_absent_total (msg : string -> string) (required : list string)
  (v : pyval) :
  container v = true -> exists issues, report_absent msg required v = Ok issues.
Proof.
  intros Hv. unfold report_absent. apply for_extend_total.
  intros k _. destruct v; try discriminate Hv; simpl;
    match goal with |- context [negb ?b] => destruct b end;
    eexists; reflexivity.
Qed.

Lemma enumerate_from_In {A : Type} (i idx : nat) (x : A) (xs : list A) :
  In (idx, x) (enumerate_from i xs) -> In x xs.
Proof.
  revert i. induction xs as [| y xs IH]; simpl; intros i H.
  - exact H.
  - destruct H as [H | H].
    + left. congruence.
    + right. eapply IH. exact H.
Qed.

Lemma _validate_features_total (self : t) (features : pyval) :
  features_typed features = true ->
  exists issues, _validate_features self features = Ok issues.
Proof.
  unfold features_typed, _validate_features. intros H.
  destruct (truthy features) eqn:Htruthy; simpl in *.
  2: { eexists. reflexivity. }
  assert (Hloop : forall entries,
            Forall (fun x => container x = true) entries ->
            exists issues,
              for_extend
                (fun '(idx, feature) =>
                   report_absent (missing_feature_field_msg idx)
                     required_feature_fields feature)
                (enumerate entries) = Ok issues).
  { intros entries Hall. apply for_extend_total.
    intros [idx feature] Hin. apply report_absent_total.
    apply enumerate_from_In in Hin.
    rewrite Forall_forall in Hall. apply Hall. exact Hin. }
  destruct features as [| b | z | f | str | l | d];
    try discriminate H.
  - destruct str as [| c str]; [discriminate Htruthy |].
    destruct (chars_String c str) as (g & gs & Hchars).
    cbn [bind py_len py_iter]. rewrite Hchars.
    cbn [List.length Nat.eqb]. rewrite <- Hchars.
    apply Hloop. apply Forall_forall. intros x Hx.
    apply in_map_iff in Hx. destruct Hx as (y & <- & _). reflexivity.
  - destruct l as [| x l]; [discriminate Htruthy |].
    cbn [bind py_len py_iter List.length Nat.eqb].
    apply Hloop. apply Forall_forall.
    exact (proj1 (forallb_forall container (x :: l)) H).
  - destruct d as [| kv d]; [discriminate Htruthy |].
    cbn [bind py_len py_iter List.length Nat.eqb].
    apply Hloop. apply Forall_forall. intros x Hx.
    apply in_map_iff in Hx. destruct Hx as (y & <- & _). reflexivity.
Qed.

Lemma extend_if_present_total (key : string) (prd : pydict)
  (check : pyval -> result (list string)) (issues : list string) :
  (has_key key prd = true ->
   exists found, check (dict_get key prd) = Ok found) ->
  exists out, extend_if_present key prd check issues = Ok out.
Proof.
  unfold extend_if_present. destruct (has_key key prd); intros H.
  - destruct H as (found & ->); [reflexivity |]. eexists. reflexivity.
  - eexists. reflexivity.
Qed.

Lemma validate_prd_total (self : t) (prd : pydict) :
  prd_typed prd = true -> exists answer, validate_prd self prd = Ok answer.
Proof.
  unfold prd_typed, validate_prd. intros H.
  apply andb_true_iff in H. destruct H as (H & Hc).
  apply andb_true_iff in H. destruct H as (Hf & Hm).
  edestruct (extend_if_present_total "features") as (i1 & ->).
  { intros Hk. rewrite Hk in Hf. apply _validate_features_total. exact Hf. }
  cbn [bind].
  edestruct (extend_if_present_total "success_metrics") as (i2 & ->).
  { intros Hk. rewrite Hk in Hm. apply report_absent_total. exact Hm. }
  cbn [bind].
  edestruct (extend_if_present_total "constraints") as (i3 & ->).
  { intros Hk. rewrite Hk in Hc. apply report_absent_total. exact Hc. }
  eexists. reflexivity.
Qed.

(** C7.  For every PRD document and every name [s] of the required list:
    the issue list of [validate_prd] has exactly one entry
    ["Missing section: s"] when [s] is no key of the document and none when
    it is; these entries come first, in the order of the required list.
    The validator returns such a list for every document whose optional
    parts have the expected types. *)
Theorem missing_sections_reported_once_in_order (path now : string)
  (prd : pydict) :
  (prd_typed prd = true ->
   exists answer, validate_prd (init path now) prd = Ok answer)
  /\ (forall answer,
        validate_prd (init path now) prd = Ok answer ->
        exists issues rest,
          field "issues" answer = Some (PList (map PStr issues))
          /\ issues
             = map missing_section_msg
                 (filter (fun s => negb (has_key s prd))
                    (required_sections (init path now)))
               ++ rest
          /\ forall s,
               In s (required_sections (init path now)) ->
               count_occ string_dec issues (missing_section_msg s)
               = if has_key s prd then 0 else 1).
Proof.
  split; [apply validate_prd_total |].
  intros answer H. apply validate_prd_issues in H.
  destruct H as (rest & -> & Hrest).
  rewrite missing_sections_filter.
  eexists. exists rest. split; [reflexivity |]. split; [reflexivity |].
  intros s Hs. rewrite count_occ_app.
  rewrite count_occ_map_filter;
    [| apply missing_section_msg_inj
     | apply required_sections_NoDup
     | exact Hs].
  rewrite (proj1 (count_occ_not_In string_dec rest (missing_section_msg s))).
  - destruct (has_key s prd); reflexivity.
  - intros Hin. rewrite Forall_forall in Hrest. apply Hrest in Hin.
    unfold not_section_issue in Hin.
    rewrite missing_section_msg_prefix in Hin. discriminate Hin.
Qed.

(** C10.  A document that has the eight required sections and none of the
    keys [features], [success_metrics] and [constraints] is valid, with no
    issue: the three keys are no required section, and their checks run
    only when the key is present. *)
Theorem sections_only_document_is_valid (path now : string) (prd : pydict) :
  (forall s, In s (required_sections (init path now)) ->
             has_key s prd = true) ->
  has_key "features" prd = false ->
  has_key "success_metrics" prd = false ->
  has_key "constraints" prd = false ->
  validate_prd (init path now) prd
  = Ok (PDict
          [("valid", PBool true);
           ("issues", PList []);
           ("timestamp", PStr now)])
  /\ List.length (required_sections (init path now)) = 8
  /\ ~ In "features" (required_sections (init path now))
  /\ ~ In "success_metrics" (required_sections (init path now))
  /\ ~ In "constraints" (required_sections (init path now)).
Proof.
  intros Hall Hf Hm Hc. split.
  - unfold validate_prd, extend_if_present. rewrite Hf, Hm, Hc.
    rewrite missing_sections_filter.
    rewrite filter_none; [reflexivity |].
    intros s Hs. rewrite (Hall s Hs). reflexivity.
  - split; [reflexivity |].
    repeat split; simpl; intuition discriminate.
Qed.

(** *** The feature list *)

Lemma report_absent_dict (msg : string -> string) (required : list string)
  (d : pydict) :
  report_absent msg required (PDict d)
  = Ok (map msg (filter (fun k => negb (has_key k d)) required)).
Proof.
  unfold report_absent.
  rewrite for_extend_pure
    with (f := fun k => if negb (has_key k d) then [msg k] else []).
  - f_equal. induction required as [| k l IH]; simpl.
    + reflexivity.
    + rewrite IH. destruct (has_key k d); reflexivity.
  - intros k _. simpl. destruct (has_key k d); reflexivity.
Qed.

Lemma features_loop (i : nat) (entries : list pydict) :
  for_extend
    (fun '(idx, feature) =>
       report_absent (missing_feature_field_msg idx)
         required_feature_fields feature)
    (enumerate_from i (map PDict entries))
  = Ok (feature_issues_from i entries).
Proof.
  revert i. induction entries as [| d rest IH]; intros i.
  - reflexivity.
  - cbn [map enumerate_from for_extend feature_issues_from].
    rewrite report_absent_dict. cbn [bind]. rewrite IH. reflexivity.
Qed.

Lemma _validate_features_dicts (self : t) (entries : list pydict) :
  entries <> [] ->
  _validate_features self (PList (map PDict entries))
  = Ok (feature_issues_from 0 entries).
Proof.
  intros Hne. destruct entries as [| d rest]; [congruence |].
  unfold _validate_features.
  cbn [map truthy negb py_len bind List.length Nat.eqb py_iter].
  apply (features_loop 0 (d :: rest)).
Qed.

Lemma feature_issues_length (i : nat) (entries : list pydict) (M : nat) :
  Forall (fun d => List.length (missing_fields d) = M) entries ->
  List.length (feature_issues_from i entries) = List.length entries * M.
Proof.
  intros Hall. revert i.
  induction Hall as [| d rest Hd Hall IH]; intros i; simpl.
  - reflexivity.
  - rewrite length_app, length_map, IH, Hd. reflexivity.
Qed.

Lemma feature_issues_In (i : nat) (entries : list pydict) (x : string) :
  In x (feature_issues_from i entries)
  <-> exists j d f,
        nth_error entries j = Some d
        /\ In f (missing_fields d)
        /\ x = missing_feature_field_msg (i + j) f.
Proof.
  revert i. induction entries as [| d rest IH]; intros i; simpl.
  - split; [intros [] |]. intros (j & d & f & Hj & _). destruct j; discriminate.
  - rewrite in_app_iff, in_map_iff, IH. split.
    + intros [(f & <- & Hf) | (j & d' & f & Hj & Hf & ->)].
      * exists 0, d, f. rewrite Nat.add_0_r. auto.
      * exists (S j), d', f. rewrite Nat.add_succ_r. auto.
    + intros (j & d' & f & Hj & Hf & ->). destruct j as [| j]; simpl in Hj.
      * injection Hj as <-. left. exists f. rewrite Nat.add_0_r. auto.
      * right. exists j, d', f. rewrite Nat.add_succ_r. auto.
Qed.

(** **** The text of an issue determines its index and its field *)

Lemma str_of_nat_digits (n : nat) : all_digits (str_of_nat n) = true.
Proof.
  unfold str_of_nat. induction (Nat.to_uint n); simpl; auto.
Qed.

Lemma str_of_nat_inj (i j : nat) : str_of_nat i = str_of_nat j -> i = j.
Proof.
  unfold str_of_nat. intros H.
  apply (f_equal NilEmpty.uint_of_string) in H.
  rewrite !NilEmpty.usu in H. injection H as H.
  apply (f_equal Nat.of_uint) in H.
  rewrite !DecimalNat.Unsigned.of_to in H. exact H.
Qed.

Lemma digits_then_colon (a b x y : string) :
  all_digits a = true -> all_digits b = true ->
  a +++ String ":" x = b +++ String ":" y -> a = b /\ x = y.
Proof.
  revert b. induction a as [| c a IH]; intros [| c' b] Ha Hb H; simpl in *.
  - injection H as H. auto.
  - injection H as Hc _. subst c'. discriminate Hb.
  - injection H as Hc _. subst c. discriminate Ha.
  - injection H as Hc H. subst c'.
    apply andb_true_iff in Ha, Hb.
    destruct (IH b) as (-> & ->); [tauto | tauto | exact H | auto].
Qed.

Lemma length_append (a b : string) :
  String.length (a +++ b) = String.length a + String.length b.
Proof. induction a as [| c a IH]; simpl; [| rewrite IH]; reflexivity. Qed.

Lemma append_inj_l (a b s : string) : a +++ s = b +++ s -> a = b.
Proof.
  revert b. induction a as [| c a IH]; intros [| c' b] H; simpl in *.
  - reflexivity.
  - apply (f_equal String.length) in H. simpl in H.
    rewrite length_append in H. lia.
  - apply (f_equal String.length) in H. simpl in H.
    rewrite length_append in H. lia.
  - injection H as -> H. f_equal. apply IH. exact H.
Qed.

Lemma missing_feature_field_msg_inj (i j : nat) (f g : string) :
  missing_feature_field_msg i f = missing_feature_field_msg j g ->
  i = j /\ f = g.
Proof.
  unfold missing_feature_field_msg. intros H.
  apply append_inj_r in H.
  apply digits_then_colon in H; try apply str_of_nat_digits.
  destruct H as (Hi & Hf). split.
  - apply str_of_nat_inj. exact Hi.
  - apply (append_inj_r " missing field '") in Hf.
    apply append_inj_l in Hf. exact Hf.
Qed.

Lemma missing_fields_NoDup (d : pydict) : NoDup (missing_fields d).
Proof.
  apply NoDup_filter. unfold required_feature_fields.
  repeat constructor; simpl; intuition discriminate.
Qed.

Lemma feature_issues_NoDup (i : nat) (entries : list pydict) :
  NoDup (feature_issues_from i entries).
Proof.
  revert i. induction entries as [| d rest IH]; intros i; simpl.
  - constructor.
  - apply NoDup_app.
    + apply NoDup_map_NoDup_ForallPairs; [| apply missing_fields_NoDup].
      intros f g _ _ H. apply missing_feature_field_msg_inj in H. tauto.
    + apply IH.
    + intros x Hhead Htail.
      apply in_map_iff in Hhead. destruct Hhead as (f & <- & _).
      apply feature_issues_In in Htail.
      destruct Htail as (j & d' & g & _ & _ & H).
      apply missing_feature_field_msg_inj in H. lia.
Qed.

(** C8.  A false feature list, the empty list among them, gets the single
    issue ["No features defined"].  A list of [N >= 1] entries that each
    lack [M] of the four required fields gets [N * M] issues, no two of
    them equal: one for each entry index and field the entry lacks, and
    the text of an issue determines that index and that field. *)
Theorem feature_list_issue_count (self : t) :
  (forall features,
      truthy features = false ->
      _validate_features self features = Ok ["No features defined"])
  /\ (forall (entries : list pydict) (M : nat),
        entries <> [] ->
        Forall (fun d => List.length (missing_fields d) = M) entries ->
        exists issues,
          _validate_features self (PList (map PDict entries)) = Ok issues
          /\ List.length issues = List.length entries * M
          /\ NoDup issues
          /\ forall x,
               In x issues
               <-> exists idx d f,
                     nth_error entries idx = Some d
                     /\ In f required_feature_fields
                     /\ has_key f d = false
                     /\ x = missing_feature_field_msg idx f)
  /\ (forall i f j g,
        missing_feature_field_msg i f = missing_feature_field_msg j g ->
        i = j /\ f = g)
  /\ List.length required_feature_fields = 4.
Proof.
  split; [| split; [| split; [| reflexivity]]].
  - intros features Hfalse. unfold _validate_features.
    rewrite Hfalse. reflexivity.
  - intros entries M Hne Hall.
    exists (feature_issues_from 0 entries).
    split; [apply _validate_features_dicts; exact Hne |].
    split; [apply feature_issues_length; exact Hall |].
    split; [apply feature_issues_NoDup |].
    intros x. rewrite feature_issues_In. unfold missing_fields.
    split; intros (idx & d & f & Hidx & H).
    + exists idx, d, f. rewrite filter_In, negb_true_iff in H. tauto.
    + exists idx, d, f. rewrite filter_In, negb_true_iff. tauto.
  - intros i f j g. apply missing_feature_field_msg_inj.
Qed.

(** *** Instances *)

Lemma missing_sections_reported_once_in_order_witness :
  exists answer issues rest,
    validate_prd (init default_prd_path "2026-01-01T00:00:00") draft_prd
    = Ok answer
    /\ field "issues" answer = Some (PList (map PStr issues))
    /\ issues
       = ["Missing section: Executive Summary";
          "Missing section: Problem Statement";
          "Missing section: Target Users/Personas";
          "Missing section: Core Features";
          "Missing section: Success Metrics";
          "Missing section: Constraints";
          "Missing section: Non-Goals"] ++ rest
    /\ count_occ string_dec issues "Missing section: Constraints" = 1
    /\ count_occ string_dec issues "Missing section: Timeline" = 0.
Proof.
  destruct (missing_sections_reported_once_in_order default_prd_path
              "2026-01-01T00:00:00" draft_prd) as (Hret & Hissues).
  destruct (Hret eq_refl) as (answer & Hanswer).
  destruct (Hissues answer Hanswer) as (issues & rest & Hfield & Hsplit & Hcount).
  exists answer, issues, rest.
  split; [exact Hanswer |]. split; [exact Hfield |]. split; [exact Hsplit |].
  split.
  - apply (Hcount "Constraints"). simpl. tauto.
  - apply (Hcount "Timeline"). simpl. tauto.
Defined.

Lemma sections_only_document_is_valid_witness :
  validate_prd (init default_prd_path "2026-01-01T00:00:00") sections_only_prd
  = Ok (PDict
          [("valid", PBool true);
           ("issues", PList []);
           ("timestamp", PStr "2026-01-01T00:00:00")]).
Proof.
  apply (sections_only_document_is_valid default_prd_path
           "2026-01-01T00:00:00" sections_only_prd);
    [| reflexivity | reflexivity | reflexivity].
  intros s Hs. simpl in Hs.
  repeat (destruct Hs as [<- | Hs]; [reflexivity |]). destruct Hs.
Defined.

Lemma feature_list_issue_count_witness :
  exists issues,
    _validate_features (init default_prd_path "")
      (PList (map PDict two_thin_features)) = Ok issues
    /\ List.length issues = 2 * 3
    /\ NoDup issues.
Proof.
  destruct (feature_list_issue_count (init default_prd_path ""))
    as (_ & Hcount & _).
  destruct (Hcount two_thin_features 3) as (issues & Hrun & Hlen & Hnd & _).
  - discriminate.
  - repeat constructor.
  - exists issues. split; [exact Hrun |]. split; [exact Hlen | exact Hnd].
Defined.

End PRDValidatorFacts.

(** ** The request validators and the orchestrator *)

Lemma first_missing_Some (required : list string) (request : pydict)
  (f : string) :
  first_missing required request = Some f ->
  In f required /\ has_key f request = false.
Proof.
  induction required as [| g rest IH]; simpl; intros H.
  - discriminate H.
  - destruct (has_key g request) eqn:Hg; simpl in H.
    + destruct (IH H) as (Hin & Hf). auto.
    + injection H as <-. auto.
Qed.

Lemma first_missing_None (required : list string) (request : pydict) :
  first_missing required request = None
  <-> forall f, In f required -> has_key f request = true.
Proof.
  induction required as [| g rest IH]; simpl.
  - split; [intros _ f [] | reflexivity].
  - destruct (has_key g request) eqn:Hg; simpl.
    + rewrite IH. split.
      * intros H f [<- | Hf]; auto.
      * intros H f Hf. apply H. right. exact Hf.
    + split; [discriminate |].
      intros H. rewrite (H g) in Hg by (left; reflexivity). discriminate Hg.
Qed.

(** The field the loop stops at is lacking, and every required field
    before it is there. *)
Lemma first_missing_split (required : list string) (request : pydict)
  (f : string) :
  first_missing required request = Some f ->
  exists before after,
    required = before ++ f :: after
    /\ (forall h, In h before -> has_key h request = true)
    /\ has_key f request = false.
Proof.
  induction required as [| g rest IH]; simpl; intros H.
  - discriminate H.
  - destruct (has_key g request) eqn:Hg; simpl in H.
    + destruct (IH H) as (before & after & -> & Hbefore & Hf).
      exists (g :: before), after. split; [reflexivity |].
      split; [| exact Hf].
      intros h [<- | Hh]; [exact Hg | apply Hbefore; exact Hh].
    + injection H as <-. exists [], rest. split; [reflexivity |].
      split; [intros h [] | exact Hg].
Qed.

(** A request that lacks a required field stops the loop at some field. *)
Lemma first_missing_exists (required : list string) (request : pydict)
  (g : string) :
  In g required -> has_key g request = false ->
  exists f, first_missing required request = Some f.
Proof.
  intros Hin Hg.
  destruct (first_missing required request) as [f |] eqn:H.
  - exists f. reflexivity.
  - rewrite first_missing_None in H. rewrite (H g Hin) in Hg. discriminate Hg.
Qed.

Module OrchestratorFacts.
Import Orchestrator OrchestratorSpec.

Lemma orchestrate_run_missing_field (self : t) (uuid4 : string)
  (request : pydict) (f : string) :
  first_missing required request = Some f ->
  orchestrate_run self uuid4 request
  = Ok (rejected self
          (PDict [("valid", PBool false);
                  ("error", PStr ("Missing field: " +++ f))]),
        []).
Proof.
  intros H. unfold orchestrate_run, _validate_request.
  fold required. rewrite H. reflexivity.
Qed.

Lemma orchestrate_run_no_prd (self : t) (uuid4 : string) (request : pydict) :
  first_missing required request = None ->
  truthy (dict_get "prd" request) = false ->
  orchestrate_run self uuid4 request
  = Ok (rejected self prd_missing,
        [phase_record VALIDATE_REQUEST "completed" "result" request_ok]).
Proof.
  intros H Hprd. unfold orchestrate_run, _validate_request, _validate_prd.
  fold required. rewrite H, Hprd. reflexivity.
Qed.

Lemma orchestrate_run_accepted (self : t) (uuid4 : string)
  (request : pydict) :
  first_missing required request = None ->
  truthy (dict_get "prd" request) = true ->
  orchestrate_run self uuid4 request
  = Ok (accepted self (_generate_id self uuid4), accepted_phases self).
Proof.
  intros H Hprd. unfold orchestrate_run, _validate_request, _validate_prd.
  fold required. rewrite H, Hprd. reflexivity.
Qed.

(** The phase records do not depend on the orchestrator instance. *)
Lemma accepted_phases_constant (self self' : t) :
  accepted_phases self = accepted_phases self'.
Proof. reflexivity. Qed.

(** An answer with [valid: True] comes from a request that has the three
    fields and a true [prd]. *)
Lemma orchestrate_valid_inv (self : t) (uuid4 : string) (request : pydict)
  (r : pyval) :
  orchestrate self uuid4 request = Ok r ->
  field "valid" r = Some (PBool true) ->
  r = accepted self (_generate_id self uuid4).
Proof.
  unfold orchestrate. intros H Hvalid.
  destruct (first_missing required request) as [f |] eqn:Hreq.
  - rewrite (orchestrate_run_missing_field _ _ _ _ Hreq) in H.
    simpl in H. injection H as <-. discriminate Hvalid.
  - destruct (truthy (dict_get "prd" request)) eqn:Hprd.
    + rewrite (orchestrate_run_accepted _ _ _ Hreq Hprd) in H.
      simpl in H. injection H as <-. reflexivity.
    + rewrite (orchestrate_run_no_prd _ _ _ Hreq Hprd) in H.
      simpl in H. injection H as <-. discriminate Hvalid.
Qed.

Lemma required_present (request : pydict) :
  has_key "type" request = true ->
  has_key "action" request = true ->
  has_key "description" request = true ->
  first_missing required request = None.
Proof.
  intros Ht Ha Hd. unfold required. simpl. rewrite Ht, Ha, Hd. reflexivity.
Qed.

(** *** Requests of an unknown type *)

(** C1 fails on the code: [orchestrate] accepts the request
    [chore_request], whose type is none of the four valid types, and builds
    the whole plan for it. *)
Lemma orchestrate_accepts_unknown_type :
  ~ (forall (now uuid4 : string) (request : pydict),
       has_key "type" request = true ->
       has_key "action" request = true ->
       has_key "description" request = true ->
       unknown_type request ->
       exists r,
         orchestrate (init now) uuid4 request = Ok r
         /\ field "valid" r = Some (PBool false)
         /\ field "execution_plan" r = None).
Proof.
  intros Hclaim.
  destruct (Hclaim "2026-01-01T00:00:00" "0123abcd-0000" chore_request)
    as (r & Hr & Hvalid & _); try reflexivity.
  vm_compute in Hr. injection Hr as <-. discriminate Hvalid.
Qed.

(** C1, amended.  For a request that has the three fields and a type that
    is none of the four valid types, the request hook answers [valid:
    False] with the invalid-type error.  The orchestrator does not look at
    the type: its request validation passes, and [orchestrate] rejects the
    request, before any plan is built, only when [prd] is missing or
    false; otherwise it returns the whole seven-phase plan. *)
Theorem unknown_type_rejected_by_hook_only
  (hook : UserPromptSubmitValidator.t) (now uuid4 : string)
  (request : pydict) :
  has_key "type" request = true ->
  has_key "action" request = true ->
  has_key "description" request = true ->
  unknown_type request ->
  UserPromptSubmitValidator.validate_request hook request
  = PDict
      [("valid", PBool false);
       ("error",
        PStr ("Invalid request type. Must be one of: "
              +++ "feature, bugfix, refactor, documentation"));
       ("timestamp", PStr (UserPromptSubmitValidator.timestamp hook))]
  /\ _validate_request (init now) request = request_ok
  /\ orchestrate_run (init now) uuid4 request
     = (if truthy (dict_get "prd" request)
        then Ok (accepted (init now) (_generate_id (init now) uuid4),
                 accepted_phases (init now))
        else Ok (rejected (init now) prd_missing,
                 [phase_record VALIDATE_REQUEST "completed" "result"
                    request_ok]))
  /\ orchestrate (init now) uuid4 request
     = Ok (if truthy (dict_get "prd" request)
           then accepted (init now) (_generate_id (init now) uuid4)
           else rejected (init now) prd_missing).
Proof.
  intros Ht Ha Hd Hunknown.
  pose proof (required_present request Ht Ha Hd) as Hreq.
  assert (Hrun : orchestrate_run (init now) uuid4 request
                 = (if truthy (dict_get "prd" request)
                    then Ok (accepted (init now)
                               (_generate_id (init now) uuid4),
                             accepted_phases (init now))
                    else Ok (rejected (init now) prd_missing,
                             [phase_record VALIDATE_REQUEST "completed"
                                "result" request_ok]))).
  { destruct (truthy (dict_get "prd" request)) eqn:Hprd.
    - apply orchestrate_run_accepted; assumption.
    - apply orchestrate_run_no_prd; assumption. }
  split; [| split; [| split; [exact Hrun |]]].
  3: { unfold orchestrate. rewrite Hrun.
       destruct (truthy (dict_get "prd" request)); reflexivity. }
  - unfold UserPromptSubmitValidator.validate_request.
    change UserPromptSubmitValidator.required_fields with required.
    rewrite Hreq. unfold unknown_type in Hunknown. rewrite Hunknown.
    reflexivity.
  - unfold _validate_request. fold required. rewrite Hreq. reflexivity.
Qed.

(** *** Requests that lack fields *)

(** C2 fails on the code: on the empty request, which lacks the three
    fields, neither validator names [action] (nor [description]); both stop
    at [type]. *)
Lemma validators_stop_at_first_missing_field :
  ~ (forall (hook : UserPromptSubmitValidator.t) (request : pydict),
       2 <= List.length
              (filter (fun f => negb (has_key f request)) required) ->
       field "valid"
         (UserPromptSubmitValidator.validate_request hook request)
       = Some (PBool false)
       /\ forall f, In f required -> has_key f request = false ->
                    describes
                      (UserPromptSubmitValidator.validate_request hook
                         request) f = true)
  /\ ~ (forall (self : t) (request : pydict),
          2 <= List.length
                 (filter (fun f => negb (has_key f request)) required) ->
          field "valid" (_validate_request self request) = Some (PBool false)
          /\ forall f, In f required -> has_key f request = false ->
                       describes (_validate_request self request) f = true).
Proof.
  split; intros Hclaim.
  - destruct (Hclaim (UserPromptSubmitValidator.init "" "") [])
      as (_ & Hall); [simpl; lia |].
    specialize (Hall "action"). simpl in Hall.
    discriminate Hall; auto.
  - destruct (Hclaim (init "") []) as (_ & Hall); [simpl; lia |].
    specialize (Hall "action"). simpl in Hall.
    discriminate Hall; auto.
Qed.

(** C2, amended.  For a request that lacks one or more of the three
    required fields, both validators answer [valid: False] with an error
    that names the first lacking field in the order type, action,
    description, and no other required field: the field [f] named is
    lacking, and the required fields that stand before [f] in that order
    are all in the request. *)
Theorem validators_report_first_missing_field
  (hook : UserPromptSubmitValidator.t) (self : t) (request : pydict)
  (g : string) :
  In g required -> has_key g request = false ->
  exists before f after,
    ["type"; "action"; "description"] = before ++ f :: after
    /\ (forall h, In h before -> has_key h request = true)
    /\ has_key f request = false
    /\ first_missing required request = Some f
    /\ UserPromptSubmitValidator.validate_request hook request
       = PDict
           [("valid", PBool false);
            ("error", PStr ("Missing required field: " +++ f));
            ("timestamp", PStr (UserPromptSubmitValidator.timestamp hook))]
    /\ _validate_request self request
       = PDict
           [("valid", PBool false);
            ("error", PStr ("Missing field: " +++ f))]
    /\ forall h,
         In h required ->
         describes (UserPromptSubmitValidator.validate_request hook request) h
         = String.eqb h f
         /\ describes (_validate_request self request) h = String.eqb h f.
Proof.
  intros Hg Hmissing.
  destruct (first_missing_exists required request g Hg Hmissing) as (f & Hf).
  destruct (first_missing_Some _ _ _ Hf) as (Hin & Hkey).
  destruct (first_missing_split _ _ _ Hf)
    as (before & after & Hsplit & Hbefore & _).
  exists before, f, after.
  split; [exact Hsplit |]. split; [exact Hbefore |].
  split; [exact Hkey |]. split; [exact Hf |].
  unfold UserPromptSubmitValidator.validate_request, _validate_request.
  change UserPromptSubmitValidator.required_fields with required.
  fold required. rewrite Hf.
  split; [reflexivity |]. split; [reflexivity |].
  intros h Hh. unfold required in Hin, Hh. simpl in Hin, Hh.
  destruct Hin as [<- | [<- | [<- | []]]];
    destruct Hh as [<- | [<- | [<- | []]]]; split; reflexivity.
Qed.

(** *** Requests without a PRD *)

(** C6.  For a request that has the three fields and whose [prd] is null
    or absent, [orchestrate] answers [valid: False] with the error
    ["PRD not provided"]; the phase list holds the completed
    [validate_request] record and nothing else when the method returns,
    and the answer carries no plan. *)
Theorem orchestrate_without_prd (now uuid4 : string) (request : pydict) :
  has_key "type" request = true ->
  has_key "action" request = true ->
  has_key "description" request = true ->
  lookup "prd" request = None \/ lookup "prd" request = Some PNone ->
  orchestrate_run (init now) uuid4 request
  = Ok (PDict
          [("valid", PBool false);
           ("error",
            PDict [("valid", PBool false);
                   ("error", PStr "PRD not provided")]);
           ("timestamp", PStr now)],
        [PDict [("name", PStr "validate_request");
                ("status", PStr "completed");
                ("result",
                 PDict [("valid", PBool true);
                        ("request_structure", PStr "valid")])]])
  /\ exists r,
       orchestrate (init now) uuid4 request = Ok r
       /\ field "valid" r = Some (PBool false)
       /\ field "error" r = Some prd_missing
       /\ field "execution_plan" r = None
       /\ field "agent_assignments" r = None.
Proof.
  intros Ht Ha Hd Hprd.
  assert (Hrun : orchestrate_run (init now) uuid4 request
                 = Ok (rejected (init now) prd_missing,
                       [phase_record VALIDATE_REQUEST "completed" "result"
                          request_ok])).
  { apply orchestrate_run_no_prd.
    - apply required_present; assumption.
    - unfold dict_get. destruct Hprd as [-> | ->]; reflexivity. }
  split; [exact Hrun |].
  unfold orchestrate. rewrite Hrun. eexists. split; [reflexivity |].
  repeat split; reflexivity.
Qed.

(** *** The plan is a template *)

(** C9.  Two requests that both pass the request and PRD validations get
    the same phase records (execution-plan skeleton, task assignments,
    test plan, review checklist, deployment strategy) and the same agent
    assignments; the two answers differ in the request identifier and the
    timestamp only. *)
Theorem plan_independent_of_request (now1 now2 uuid1 uuid2 : string)
  (request1 request2 : pydict) (r1 r2 : pyval) :
  orchestrate (init now1) uuid1 request1 = Ok r1 ->
  field "valid" r1 = Some (PBool true) ->
  orchestrate (init now2) uuid2 request2 = Ok r2 ->
  field "valid" r2 = Some (PBool true) ->
  exists phases assignments,
    r1 = PDict
           [("valid", PBool true);
            ("execution_plan",
             PDict [("request_id", PStr (_generate_id (init now1) uuid1));
                    ("timestamp", PStr now1);
                    ("phases", PList phases)]);
            ("agent_assignments", assignments);
            ("ready_for_implementation", PBool true);
            ("timestamp", PStr now1)]
    /\ r2 = PDict
              [("valid", PBool true);
               ("execution_plan",
                PDict [("request_id", PStr (_generate_id (init now2) uuid2));
                       ("timestamp", PStr now2);
                       ("phases", PList phases)]);
               ("agent_assignments", assignments);
               ("ready_for_implementation", PBool true);
               ("timestamp", PStr now2)]
    /\ phases = accepted_phases (init now1)
    /\ phases = accepted_phases (init now2)
    /\ (forall plan1 plan2,
          assignments = _assign_work (init now1) plan1
          /\ assignments = _assign_work (init now2) plan2)
    /\ (forall prd1 prd2,
          In (phase_record PLAN "ready" "plan"
                (_create_execution_plan (init now1) request1 prd1)) phases
          /\ In (phase_record PLAN "ready" "plan"
                   (_create_execution_plan (init now2) request2 prd2)) phases).
Proof.
  intros H1 Hv1 H2 Hv2.
  apply orchestrate_valid_inv in H1; [| exact Hv1].
  apply orchestrate_valid_inv in H2; [| exact Hv2].
  subst r1 r2. eexists. eexists.
  split; [reflexivity |]. split; [reflexivity |].
  split; [reflexivity |]. split; [reflexivity |].
  split.
  - intros plan1 plan2. split; reflexivity.
  - intros prd1 prd2. split; right; right; left; reflexivity.
Qed.

(** *** Instances *)

Lemma unknown_type_rejected_by_hook_only_witness :
  field "valid"
    (UserPromptSubmitValidator.validate_request
       (UserPromptSubmitValidator.init "./product/prd.md" "") chore_request)
  = Some (PBool false)
  /\ orchestrate_run (init "") "0123abcd-0000" chore_request
     = Ok (accepted (init "") "0123abcd", accepted_phases (init "")).
Proof.
  destruct (unknown_type_rejected_by_hook_only
              (UserPromptSubmitValidator.init "./product/prd.md" "")
              "" "0123abcd-0000" chore_request)
    as (Hhook & _ & Hrun & _); try reflexivity.
  split.
  - rewrite Hhook. reflexivity.
  - exact Hrun.
Defined.

Lemma validators_report_first_missing_field_witness :
  UserPromptSubmitValidator.validate_request
    (UserPromptSubmitValidator.init "./product/prd.md" "") type_only_request
  = PDict [("valid", PBool false);
           ("error", PStr "Missing required field: action");
           ("timestamp", PStr "")]
  /\ _validate_request (init "") type_only_request
     = PDict [("valid", PBool false);
              ("error", PStr "Missing field: action")].
Proof.
  destruct (validators_report_first_missing_field
              (UserPromptSubmitValidator.init "./product/prd.md" "")
              (init "") type_only_request "description")
    as (before & f & after & Hsplit & Hbefore & Hf & _ & Hhook & Horch & _).
  - simpl. tauto.
  - reflexivity.
  - assert (Hname : f = "action").
    { destruct before as [| b1 [| b2 [| b3 before]]];
        injection Hsplit as ? ?; subst.
      - discriminate Hf.
      - reflexivity.
      - discriminate (Hbefore "action" (or_intror (or_introl eq_refl))).
      - destruct before; discriminate. }
    rewrite Hhook, Horch, Hname. split; reflexivity.
Defined.

Lemma orchestrate_without_prd_witness :
  exists r,
    orchestrate (init "") "0123abcd-0000" request_without_prd = Ok r
    /\ field "valid" r = Some (PBool false)
    /\ field "error" r = Some prd_missing
    /\ field "execution_plan" r = None
    /\ field "agent_assignments" r = None.
Proof.
  apply (orchestrate_without_prd "" "0123abcd-0000" request_without_prd);
    try reflexivity.
  left. reflexivity.
Defined.

Lemma plan_independent_of_request_witness :
  exists r1 r2,
    orchestrate (init "2026-01-01") "0123abcd-0000" chore_request = Ok r1
    /\ orchestrate (init "2026-02-02") "89abcdef-1111" bugfix_request = Ok r2
    /\ field "agent_assignments" r1 = field "agent_assignments" r2
    /\ r1 <> r2.
Proof.
  eexists. eexists.
  split; [reflexivity |]. split; [reflexivity |].
  destruct (plan_independent_of_request "2026-01-01" "2026-02-02"
              "0123abcd-0000" "89abcdef-1111" chore_request bugfix_request
              _ _ eq_refl eq_refl eq_refl eq_refl)
    as (phases & assignments & H1 & H2 & _).
  split.
  - rewrite H1, H2. reflexivity.
  - discriminate.
Defined.

End OrchestratorFacts.

(** * Further behaviour of the hooks and of the orchestrator *)

(** Runs backwards through a computation that returned: every bind and
    every test on the way. *)
Ltac inv_run :=
  repeat first
    [ progress inv_bind
    | match goal with
      | H : (if ?b then _ else _) = Ok _ |- _ => destruct b eqn:?
      end ].

(** ** The performance guard *)

Module PerformanceGuardBehaviour.
Import PerformanceGuard PerformanceGuardSpec PerformanceGuardFacts.

Section Behaviour.
Variable repr : pyval -> string.

Lemma _check_lighthouse_critical (self : t) (scores : pyval)
  (issues : list pyval) :
  _check_lighthouse repr self scores = Ok issues ->
  Forall (has_severity "critical") issues.
Proof.
  unfold _check_lighthouse. intros H. inv_bind. revert Hrest.
  apply for_extend_Forall. intros [category score] ys _ Hbody.
  inv_run; repeat constructor.
Qed.

Lemma _check_core_web_vitals_critical (self : t) (cwv : pyval)
  (issues : list pyval) :
  _check_core_web_vitals repr self cwv = Ok issues ->
  Forall (has_severity "critical") issues.
Proof.
  unfold _check_core_web_vitals. apply for_extend_Forall.
  intros [key name] ys _ Hbody. inv_run; repeat constructor.
Qed.

Lemma _check_network_warning (self : t) (network_metrics : pyval)
  (issues : list pyval) :
  _check_network repr self network_metrics = Ok issues ->
  Forall (has_severity "warning") issues.
Proof.
  unfold _check_network. intros H. inv_bind. revert Hrest.
  apply for_extend_Forall. intros [key value] ys _ Hbody.
  inv_run; repeat constructor.
Qed.

Lemma _check_bundle_sizes_severity (self : t) (sizes : pyval)
  (issues : list pyval) :
  _check_bundle_sizes repr self sizes = Ok issues ->
  Forall (fun issue => has_severity "critical" issue
                       \/ has_severity "warning" issue) issues.
Proof.
  unfold _check_bundle_sizes. intros H. inv_bind. revert Hrest.
  apply for_extend_Forall. intros [asset size] ys _ Hbody.
  inv_run;
    repeat first [apply Forall_nil | apply Forall_cons].
  match goal with
  | |- context [if ?b then _ else _] => destruct b
  end; [left | right]; reflexivity.
Qed.

(** X1.  The severity of an issue is fixed by its group: every issue of
    the Lighthouse and of the web-vitals check is critical, every issue of
    the network check is a warning, and an issue of the bundle check is one
    or the other. *)
Theorem violations_have_group_severity (self : t) (group : pyval)
  (issues : list pyval) :
  (_check_lighthouse repr self group = Ok issues ->
   Forall (has_severity "critical") issues)
  /\ (_check_core_web_vitals repr self group = Ok issues ->
      Forall (has_severity "critical") issues)
  /\ (_check_network repr self group = Ok issues ->
      Forall (has_severity "warning") issues)
  /\ (_check_bundle_sizes repr self group = Ok issues ->
      Forall (fun issue => has_severity "critical" issue
                           \/ has_severity "warning" issue) issues).
Proof.
  repeat split.
  - apply _check_lighthouse_critical.
  - apply _check_core_web_vitals_critical.
  - apply _check_network_warning.
  - apply _check_bundle_sizes_severity.
Qed.

Lemma bind_Ok_r {A : Type} (c : result A) : bind c (fun a => Ok a) = c.
Proof. destruct c; reflexivity. Qed.

(** Entries on which the body reports nothing can be left out of a loop. *)
Lemma for_extend_filter {A B : Type} (body : A -> result (list B))
  (keep : A -> bool) (xs : list A) :
  (forall x, keep x = false -> body x = Ok []) ->
  for_extend body (filter keep xs) = for_extend body xs.
Proof.
  intros Hskip. induction xs as [| x xs IH]; simpl.
  - reflexivity.
  - destruct (keep x) eqn:Hx; simpl.
    + rewrite IH. reflexivity.
    + rewrite (Hskip x Hx). cbn [bind]. rewrite IH.
      destruct (for_extend body xs); reflexivity.
Qed.

(** The issues a loop returns, read through [measure], when the body
    reports at most one issue and [flagged] tells when. *)
Lemma for_extend_flagged {A B C : Type} (body : A -> result (list B))
  (flagged : A -> bool) (measure : B -> C) (expected : A -> C)
  (xs : list A) (issues : list B) :
  (forall x ys, In x xs -> body x = Ok ys ->
                map measure ys = if flagged x then [expected x] else []) ->
  for_extend body xs = Ok issues ->
  map measure issues = map expected (filter flagged xs).
Proof.
  revert issues. induction xs as [| x xs IH]; simpl; intros issues Hbody H.
  - inv_bind. reflexivity.
  - inv_bind. rewrite map_app.
    rewrite (Hbody x a) by (auto || assumption).
    rewrite (IH a0); [| intros y ys Hy; apply Hbody; right; exact Hy
                      | assumption].
    destruct (flagged x); reflexivity.
Qed.

(** X2.  In the bundle and in the network group an entry whose key has no
    budget is skipped, whatever its value; when the check returns, the
    issues are those of the entries with a budget whose value exceeds it,
    in the order of the input. *)
Theorem budgeted_entries_over_budget_are_reported (self : t) (d : pydict) :
  _check_bundle_sizes repr self (PDict d)
  = _check_bundle_sizes repr self
      (PDict (filter (budgeted (bundle_sizes (budgets self))) d))
  /\ _check_network repr self (PDict d)
     = _check_network repr self
         (PDict (filter (budgeted (network (budgets self))) d))
  /\ (forall issues,
        _check_bundle_sizes repr self (PDict d) = Ok issues ->
        map measured issues
        = map (fun entry => (Some (PStr (title (fst entry) +++ " bundle")),
                             Some (snd entry)))
            (filter (over_budget (bundle_sizes (budgets self))) d))
  /\ (forall issues,
        _check_network repr self (PDict d) = Ok issues ->
        map measured issues
        = map (fun entry => (Some (PStr (fst entry)), Some (snd entry)))
            (filter (over_budget (network (budgets self))) d)).
Proof.
  split; [| split; [| split]].
  - unfold _check_bundle_sizes. cbn [py_items bind].
    symmetry. apply for_extend_filter.
    intros [asset size]. unfold budgeted. cbn [fst]. intros ->. reflexivity.
  - unfold _check_network. cbn [py_items bind].
    symmetry. apply for_extend_filter.
    intros [key value]. unfold budgeted. cbn [fst]. intros ->. reflexivity.
  - intros issues. unfold _check_bundle_sizes. cbn [py_items bind].
    apply for_extend_flagged. intros [asset size] ys _.
    unfold over_budget, exceeds, table_has, table_get. cbn [fst snd].
    destruct (table_find asset _) as [budget |]; intros H; inv_run;
      try reflexivity;
      match goal with
      | Hgt : py_gt size _ = Ok _ |- _ => rewrite Hgt
      end; reflexivity.
  - intros issues. unfold _check_network. cbn [py_items bind].
    apply for_extend_flagged. intros [key value] ys _.
    unfold over_budget, exceeds, table_has, table_get. cbn [fst snd].
    destruct (table_find key _) as [budget |]; intros H; inv_run;
      try reflexivity;
      match goal with
      | Hgt : py_gt value _ = Ok _ |- _ => rewrite Hgt
      end; reflexivity.
Qed.

Lemma Z_range_In (n : nat) (lo z : Z) :
  (lo <= z < lo + Z.of_nat n)%Z -> In z (Z_range lo n).
Proof.
  revert lo. induction n as [| n IH]; intros lo Hz; [lia |].
  cbn [Z_range]. destruct (Z.eq_dec lo z) as [-> | Hne].
  - left. reflexivity.
  - right. apply IH. lia.
Qed.

(** The quotient of a score from 0 to 89 by 90 is a finite float. *)
Lemma score_quotient_finite (z : Z) :
  (0 <= z < 90)%Z ->
  Float64.is_inf (Float64.div (Float64.raw z) (Float64.raw 90)) = false.
Proof.
  intros Hz.
  assert (Hall : forallb
            (fun z => negb (Float64.is_inf
                              (Float64.div (Float64.raw z) (Float64.raw 90))))
            (Z_range 0 90) = true) by (vm_compute; reflexivity).
  rewrite forallb_forall in Hall.
  apply negb_true_iff. apply Hall. apply Z_range_In. lia.
Qed.

(** The text of an integer of at most [int_max_str_digits] digits. *)
Lemma py_str_int (z : Z) :
  (int_digits z <= int_max_str_digits)%nat ->
  py_str repr (PInt z) = Ok (str_of_Z z).
Proof.
  intros Hz. cbn [py_str].
  destruct (Nat.ltb_spec int_max_str_digits (int_digits z)); [lia |].
  reflexivity.
Qed.

Lemma py_str_score (z : Z) :
  (0 <= z <= 100)%Z -> py_str repr (PInt z) = Ok (str_of_Z z).
Proof.
  intros Hz. apply py_str_int.
  assert (Hall : forallb (fun z => (int_digits z <=? 3)%nat) (Z_range 0 101)
                 = true) by (vm_compute; reflexivity).
  rewrite forallb_forall in Hall.
  assert (Hin : In z (Z_range 0 101)) by (apply Z_range_In; lia).
  apply Hall in Hin. apply Nat.leb_le in Hin.
  unfold int_max_str_digits. lia.
Qed.

(** X3.  The Lighthouse check reads every key of the scores, also one
    that is no category of the budget table: for integer scores from 0 to
    100 it returns one issue per score below 90, in the order of the input,
    and none for a score of 90 or more. *)
Theorem lighthouse_checks_every_key (now : string) (d : pydict) :
  (forall k v, In (k, v) d -> exists z, v = PInt z /\ (0 <= z <= 100)%Z) ->
  exists issues,
    _check_lighthouse repr (init now) (PDict d) = Ok issues
    /\ map measured issues
       = map (fun entry => (Some (PStr ("Lighthouse " +++ fst entry)),
                            Some (snd entry)))
           (filter low_score d).
Proof.
  intros Hscores. unfold _check_lighthouse. cbn [py_items bind].
  assert (Hbody : forall category score,
            In (category, score) d ->
            exists ys,
              (below <- py_lt score (NInt 90) ;;
               if below : bool then
                 q <- py_truediv score (NInt 90) ;;
                 percentage <- float_mul q (NInt 100) ;;
                 score_text <- py_str repr score ;;
                 min_text <- py_str repr (PInt 90) ;;
                 Ok [PDict
                       [("type", PStr "critical");
                        ("metric", PStr ("Lighthouse " +++ category));
                        ("value", score);
                        ("budget", PInt 90);
                        ("message",
                         PStr ("Lighthouse " +++ category +++ " score ("
                               +++ score_text
                               +++ ") is below minimum ("
                               +++ min_text +++ ")"))]]
               else Ok []) = Ok ys
              /\ map measured ys
                 = if low_score (category, score)
                   then [(Some (PStr ("Lighthouse " +++ category)),
                          Some score)]
                   else []).
  { intros category score Hin.
    destruct (Hscores _ _ Hin) as (z & -> & Hz).
    unfold low_score, py_lt, py_truediv. cbn [snd as_num bind num_compare].
    change (match (z ?= 90)%Z with Lt => true | _ => false end)
      with (z <? 90)%Z.
    destruct (z <? 90)%Z eqn:Hlow.
    - cbn [Z.eqb]. rewrite score_quotient_finite by lia.
      cbn [bind float_mul to_float]. rewrite py_str_score by lia.
      eexists. split; reflexivity.
    - eexists. split; reflexivity. }
  destruct (PRDValidatorFacts.for_extend_total
              (fun '(category, score) =>
                 below <- py_lt score (NInt 90) ;;
                 if below : bool then
                   q <- py_truediv score (NInt 90) ;;
                   percentage <- float_mul q (NInt 100) ;;
                   score_text <- py_str repr score ;;
                   min_text <- py_str repr (PInt 90) ;;
                   Ok [PDict
                         [("type", PStr "critical");
                          ("metric", PStr ("Lighthouse " +++ category));
                          ("value", score);
                          ("budget", PInt 90);
                          ("message",
                           PStr ("Lighthouse " +++ category +++ " score ("
                                 +++ score_text
                                 +++ ") is below minimum ("
                                 +++ min_text +++ ")"))]]
                 else Ok []) d) as (issues & Hissues).
  { intros [category score] Hin.
    destruct (Hbody category score Hin) as (ys & Hys & _).
    exists ys. exact Hys. }
  exists issues. split; [exact Hissues |].
  revert Hissues. apply for_extend_flagged.
  intros [category score] ys Hin Hys.
  destruct (Hbody category score Hin) as (ys' & Hys' & Hmeasured).
  rewrite Hys in Hys'. injection Hys' as <-. exact Hmeasured.
Qed.

Lemma py_gt_int (z budget : Z) :
  py_gt (PInt z) (NInt budget) = Ok (z >? budget)%Z.
Proof. reflexivity. Qed.

Lemma py_gt_tenth (z : Z) :
  py_gt (PInt z) (NFloat Float64.tenth) = Ok (z >? 0)%Z.
Proof.
  unfold py_gt, Float64.tenth. cbn [as_num bind num_compare Float64.compare_Z].
  cbn [Z.leb Z.compare Z.opp]. f_equal. unfold Z.gtb.
  destruct (Z.compare_spec (z * 2 ^ 56) 7205759403792794);
    destruct (Z.compare_spec z 0); try reflexivity; lia.
Qed.

(** X4.  The web-vitals check reads the four keys fcp, lcp, tti and cls
    and nothing else of its input.  On integer values of at most 4300
    digits, the longest integers the interpreter turns into the text of a
    message, it reports a value strictly above 1500, 2500, 3500 and 0
    respectively (a value equal to the budget passes), in the order of that
    table and not of the input. *)
Theorem cwv_reads_four_keys_in_table_order (now : string) (d : pydict) :
  (forall d',
      (forall row, In row cwv_limits ->
                   lookup (fst (fst row)) d' = lookup (fst (fst row)) d) ->
      _check_core_web_vitals repr (init now) (PDict d')
      = _check_core_web_vitals repr (init now) (PDict d))
  /\ ((forall row v,
         In row cwv_limits -> lookup (fst (fst row)) d = Some v ->
         exists z, v = PInt z /\ (int_digits z <= int_max_str_digits)%nat) ->
      exists issues,
        _check_core_web_vitals repr (init now) (PDict d) = Ok issues
        /\ map measured issues
           = map (fun row => (Some (PStr (snd (fst row))),
                              Some (dict_get (fst (fst row)) d)))
               (filter (above_limit d) cwv_limits)).
Proof.
  split.
  - intros d' Hsame.
    pose proof (Hsame ("fcp", "First Contentful Paint", 1500%Z)) as H1.
    pose proof (Hsame ("lcp", "Largest Contentful Paint", 2500%Z)) as H2.
    pose proof (Hsame ("tti", "Time to Interactive", 3500%Z)) as H3.
    pose proof (Hsame ("cls", "Cumulative Layout Shift", 0%Z)) as H4.
    cbn [fst] in H1, H2, H3, H4.
    unfold _check_core_web_vitals, has_key.
    cbn [for_extend py_in py_getitem has_key].
    unfold has_key.
    rewrite H1, H2, H3, H4 by (simpl; tauto). reflexivity.
  - intros Hint.
    unfold _check_core_web_vitals, cwv_limits, above_limit, dict_get.
    cbn [for_extend py_in py_getitem filter map fst snd].
    unfold has_key.
    assert (Hkey : forall key name limit,
              In (key, name, limit) cwv_limits ->
              lookup key d = None
              \/ exists z, lookup key d = Some (PInt z)
                           /\ py_str repr (PInt z) = Ok (str_of_Z z)).
    { intros key name limit Hin.
      destruct (lookup key d) as [v |] eqn:Hv; [right | left; reflexivity].
      destruct (Hint (key, name, limit) v Hin Hv) as (z & -> & Hz).
      exists z. split; [reflexivity | apply py_str_int; exact Hz]. }
    assert (B1 : py_str repr (PInt 1500) = Ok "1500") by reflexivity.
    assert (B2 : py_str repr (PInt 2500) = Ok "2500") by reflexivity.
    assert (B3 : py_str repr (PInt 3500) = Ok "3500") by reflexivity.
    destruct (Hkey _ _ _ (or_introl eq_refl)) as [E1 | (z1 & E1 & T1)];
    destruct (Hkey _ _ _ (or_intror (or_introl eq_refl)))
      as [E2 | (z2 & E2 & T2)];
    destruct (Hkey _ _ _ (or_intror (or_intror (or_introl eq_refl))))
      as [E3 | (z3 & E3 & T3)];
    destruct (Hkey _ _ _
                (or_intror (or_intror (or_intror (or_introl eq_refl)))))
      as [E4 | (z4 & E4 & T4)];
    rewrite E1, E2, E3, E4;
    cbn [bind init budgets core_web_vitals table_get table_find
           String.eqb Ascii.eqb Bool.eqb num_val];
    rewrite ?py_gt_tenth, ?py_gt_int;
    repeat match goal with
      | |- context [(?z >? ?b)%Z] => destruct (z >? b)%Z
      end;
    cbn [bind];
    repeat match goal with
      | T : py_str repr (PInt ?z) = Ok _
        |- context [py_str repr (PInt ?z)] => rewrite T; cbn [bind]
      end;
    cbn [bind py_str]; eexists; (split; [reflexivity |]);
    cbn [map fst snd]; unfold dict_get; rewrite ?E1, ?E2, ?E3, ?E4;
    reflexivity.
Qed.

Lemma extend_if_present_group (key : string) (metrics : pydict)
  (check : pyval -> result (list pyval)) (violations : list pyval) :
  extend_if_present key metrics check violations
  = (issues <- group_issues check key metrics ;; Ok (violations ++ issues)).
Proof.
  unfold extend_if_present, group_issues.
  destruct (has_key key metrics); [reflexivity |].
  cbn [bind]. rewrite app_nil_r. reflexivity.
Qed.

(** X5.  The answer of [validate_performance] depends on the four groups
    only: other keys of the document and the order of the groups do not
    matter, and the violations are the issues of lighthouse, then
    core_web_vitals, then bundle_sizes, then network. *)
Theorem violations_are_group_issues_in_order (self : t) (metrics : pydict) :
  (forall metrics',
      (forall group, In group groups ->
                     lookup group metrics' = lookup group metrics) ->
      validate_performance repr self metrics'
      = validate_performance repr self metrics)
  /\ (forall l c b n,
        group_issues (_check_lighthouse repr self) "lighthouse" metrics
        = Ok l ->
        group_issues (_check_core_web_vitals repr self) "core_web_vitals"
          metrics = Ok c ->
        group_issues (_check_bundle_sizes repr self) "bundle_sizes" metrics
        = Ok b ->
        group_issues (_check_network repr self) "network" metrics = Ok n ->
        validate_performance repr self metrics
        = Ok (PDict
                [("valid", PBool (List.length (l ++ c ++ b ++ n) =? 0)%nat);
                 ("violations", PList (l ++ c ++ b ++ n));
                 ("warnings", PList []);
                 ("timestamp", PStr (timestamp self))])).
Proof.
  split.
  - intros metrics' Hsame.
    unfold validate_performance, extend_if_present, has_key, dict_get.
    rewrite !Hsame by (unfold groups; simpl; tauto). reflexivity.
  - intros l c b n Hl Hc Hb Hn. unfold validate_performance.
    rewrite extend_if_present_group, Hl. cbn [bind].
    rewrite extend_if_present_group, Hc. cbn [bind].
    rewrite extend_if_present_group, Hb. cbn [bind].
    rewrite extend_if_present_group, Hn. cbn [bind].
    rewrite <- !app_assoc. reflexivity.
Qed.

(** [process] answers whenever [validate_performance] does. *)
Lemma process_returns (self : t) (metrics : pydict) (validation : pyval) :
  validate_performance repr self metrics = Ok validation ->
  exists r, process repr self metrics = Ok r.
Proof.
  intros H. unfold process. rewrite H.
  apply validate_performance_shape in H. destruct H as (violations & ->).
  destruct violations; eexists; reflexivity.
Qed.

(** X6.  [process] fails exactly as [validate_performance] does; when it
    answers, the merge is approved if and only if there is no violation at
    all (a warning blocks it like a critical issue), and a rejection lists
    the same violations. *)
Theorem merge_approved_iff_no_violation (self : t) (metrics : pydict) :
  (forall e, validate_performance repr self metrics = Raise e ->
             process repr self metrics = Raise e)
  /\ (forall validation,
        validate_performance repr self metrics = Ok validation ->
        exists r violations,
          process repr self metrics = Ok r
          /\ field "violations" validation = Some (PList violations)
          /\ field "budget_summary" r = Some (get_budget_summary self)
          /\ match violations with
             | [] =>
                 field "valid" r = Some (PBool true)
                 /\ field "approved_for_merge" r = Some (PBool true)
                 /\ field "violations" r = None
             | _ :: _ =>
                 field "valid" r = Some (PBool false)
                 /\ field "approved_for_merge" r = None
                 /\ field "violations" r = Some (PList violations)
             end).
Proof.
  split.
  - intros e H. unfold process. rewrite H. reflexivity.
  - intros validation H. unfold process. rewrite H.
    apply validate_performance_shape in H.
    destruct H as (violations & ->).
    destruct violations as [| v vs]; eexists; eexists;
      (split; [reflexivity |]); repeat split; reflexivity.
Qed.

Lemma guarded_Ok {A : Type} (a : A) : guarded (Ok a).
Proof. intros e H. discriminate H. Qed.

Lemma guarded_Raise {A : Type} (e : exn) :
  guard_exception e -> guarded (@Raise A e).
Proof. intros He e' H. injection H as <-. exact He. Qed.

Lemma guarded_bind {A B : Type} (c : result A) (k : A -> result B) :
  guarded c -> (forall a, c = Ok a -> guarded (k a)) -> guarded (bind c k).
Proof.
  intros Hc Hk. destruct c as [a | e]; cbn [bind].
  - apply Hk. reflexivity.
  - intros e' H. injection H as <-. apply Hc. reflexivity.
Qed.

Lemma for_extend_guarded {A B : Type} (body : A -> result (list B))
  (xs : list A) :
  (forall x, In x xs -> guarded (body x)) -> guarded (for_extend body xs).
Proof.
  induction xs as [| x xs IH]; simpl; intros Hbody.
  - apply guarded_Ok.
  - apply guarded_bind; [apply Hbody; left; reflexivity |].
    intros here _. apply guarded_bind.
    + apply IH. intros y Hy. apply Hbody. right. exact Hy.
    + intros rest _. apply guarded_Ok.
Qed.

Lemma as_num_guarded (v : pyval) : guarded (as_num v).
Proof.
  destruct v; first [apply guarded_Ok | apply guarded_Raise; left; reflexivity].
Qed.

Lemma py_gt_guarded (v : pyval) (n : pynum) : guarded (py_gt v n).
Proof.
  unfold py_gt. apply guarded_bind; [apply as_num_guarded |].
  intros a _. apply guarded_Ok.
Qed.

Lemma py_lt_guarded (v : pyval) (n : pynum) : guarded (py_lt v n).
Proof.
  unfold py_lt. apply guarded_bind; [apply as_num_guarded |].
  intros a _. apply guarded_Ok.
Qed.

Lemma to_float_guarded (n : pynum) : guarded (to_float n).
Proof.
  destruct n as [z | f]; simpl; [| apply guarded_Ok].
  destruct (Float64.is_inf _);
    [apply guarded_Raise; right; right; left; reflexivity | apply guarded_Ok].
Qed.

(** Division by a budget that is not zero never divides by zero. *)
Lemma py_truediv_guarded (v : pyval) (b : Z) :
  (b =? 0)%Z = false ->
  (exists y, to_float (NInt b) = Ok y /\ Float64.is_zero y = false) ->
  guarded (py_truediv v (NInt b)).
Proof.
  intros Hb (y & Hy & Hzero). unfold py_truediv.
  apply guarded_bind; [apply as_num_guarded |].
  intros [x | x] _.
  - rewrite Hb. destruct (Float64.is_inf _);
      [apply guarded_Raise; right; right; left; reflexivity
      | apply guarded_Ok].
  - rewrite Hy. cbn [to_float bind]. rewrite Hzero. apply guarded_Ok.
Qed.

Lemma py_items_guarded (v : pyval) : guarded (py_items v).
Proof.
  destruct v;
    first [apply guarded_Ok
          | apply guarded_Raise; right; left; reflexivity].
Qed.

Lemma py_str_guarded (v : pyval) : guarded (py_str repr v).
Proof.
  destruct v as [| [|] | z | | | |]; try apply guarded_Ok.
  cbn [py_str]. destruct (_ <? _)%nat; [| apply guarded_Ok].
  apply guarded_Raise. right. right. right. reflexivity.
Qed.

Lemma message_guarded {A : Type} (v w : pyval) (k : string -> string -> A) :
  guarded (a <- py_str repr v ;; b <- py_str repr w ;; Ok (k a b)).
Proof.
  apply guarded_bind; [apply py_str_guarded |].
  intros a _. apply guarded_bind; [apply py_str_guarded |].
  intros b _. apply guarded_Ok.
Qed.

Lemma _check_lighthouse_guarded (now : string) (scores : pyval) :
  guarded (_check_lighthouse repr (init now) scores).
Proof.
  unfold _check_lighthouse. apply guarded_bind; [apply py_items_guarded |].
  intros items _. apply for_extend_guarded. intros [category score] _.
  apply guarded_bind; [apply py_lt_guarded |].
  intros [|] _; [| apply guarded_Ok].
  apply guarded_bind.
  - apply py_truediv_guarded; [reflexivity |].
    eexists. split; reflexivity.
  - intros q _. cbn [float_mul to_float bind]. apply message_guarded.
Qed.

Lemma _check_core_web_vitals_guarded (now : string) (cwv : pyval) :
  guarded (_check_core_web_vitals repr (init now) cwv).
Proof.
  unfold _check_core_web_vitals. apply for_extend_guarded.
  intros [key name] Hin. apply guarded_bind.
  { destruct cwv;
      first [apply guarded_Ok | apply guarded_Raise; left; reflexivity]. }
  intros [|] Hpresent; [| apply guarded_Ok].
  apply guarded_bind.
  { destruct cwv; try (apply guarded_Raise; left; reflexivity).
    cbn [py_in] in Hpresent. injection Hpresent as Hpresent.
    unfold has_key in Hpresent. cbn [py_getitem].
    destruct (lookup key d); [apply guarded_Ok | discriminate Hpresent]. }
  intros value _. apply guarded_bind.
  { simpl in Hin.
    destruct Hin as [Hin | [Hin | [Hin | [Hin | []]]]];
      injection Hin as <- <-; apply guarded_Ok. }
  intros budget _. apply guarded_bind; [apply py_gt_guarded |].
  intros [|] _; [apply message_guarded | apply guarded_Ok].
Qed.

Lemma _check_bundle_sizes_guarded (now : string) (sizes : pyval) :
  guarded (_check_bundle_sizes repr (init now) sizes).
Proof.
  unfold _check_bundle_sizes. apply guarded_bind; [apply py_items_guarded |].
  intros items _. apply for_extend_guarded. intros [asset size] _.
  unfold table_has, table_get.
  destruct (table_find asset _) as [budget |] eqn:Hbudget;
    [| apply guarded_Ok].
  cbn [bind]. apply table_find_In in Hbudget. simpl in Hbudget.
  apply guarded_bind.
  { destruct Hbudget as [<- | [<- | [<- | [<- | []]]]];
      (apply py_truediv_guarded;
       [reflexivity | eexists; split; reflexivity]). }
  intros q _. destruct (float_mul_returns q) as (p & ->). cbn [bind].
  apply guarded_bind; [apply py_gt_guarded |].
  intros [|] _; [| apply guarded_Ok].
  apply guarded_bind; [apply py_gt_guarded |].
  intros above _. apply message_guarded.
Qed.

Lemma _check_network_guarded (now : string) (network_metrics : pyval) :
  guarded (_check_network repr (init now) network_metrics).
Proof.
  unfold _check_network. apply guarded_bind; [apply py_items_guarded |].
  intros items _. apply for_extend_guarded. intros [key value] _.
  unfold table_has, table_get.
  destruct (table_find key _) as [budget |]; [| apply guarded_Ok].
  cbn [bind]. apply guarded_bind; [apply py_gt_guarded |].
  intros [|] _; [apply message_guarded | apply guarded_Ok].
Qed.

Lemma extend_if_present_guarded (key : string) (metrics : pydict)
  (check : pyval -> result (list pyval)) (violations : list pyval) :
  (forall v, guarded (check v)) ->
  guarded (extend_if_present key metrics check violations).
Proof.
  intros Hcheck. unfold extend_if_present.
  destruct (has_key key metrics); [| apply guarded_Ok].
  apply guarded_bind; [apply Hcheck |]. intros issues _. apply guarded_Ok.
Qed.

(** X7.  With the budgets of [__init__] the guard never ends in a
    [KeyError] or a [ZeroDivisionError]: the only exceptions of
    [validate_performance] and [process] are [TypeError],
    [AttributeError], [OverflowError] and the [ValueError] of a message
    that quotes an integer of more than 4300 digits. *)
Theorem guard_never_raises_key_or_zero_division (now : string)
  (metrics : pydict) (e : exn) :
  validate_performance repr (init now) metrics = Raise e
  \/ process repr (init now) metrics = Raise e ->
  e = TypeError \/ e = AttributeError \/ e = OverflowError
  \/ e = ValueError.
Proof.
  assert (Hvalidate : guarded (validate_performance repr (init now) metrics)).
  { unfold validate_performance.
    apply guarded_bind;
      [apply extend_if_present_guarded, _check_lighthouse_guarded |].
    intros v1 _. apply guarded_bind;
      [apply extend_if_present_guarded, _check_core_web_vitals_guarded |].
    intros v2 _. apply guarded_bind;
      [apply extend_if_present_guarded, _check_bundle_sizes_guarded |].
    intros v3 _. apply guarded_bind;
      [apply extend_if_present_guarded, _check_network_guarded |].
    intros v4 _. apply guarded_Ok. }
  intros [H | H]; [apply Hvalidate; exact H |].
  destruct (validate_performance repr (init now) metrics) as [validation | e']
    eqn:Hrun.
  - destruct (process_returns (init now) metrics validation Hrun)
      as (r & Hr).
    rewrite Hr in H. discriminate H.
  - unfold process in H. rewrite Hrun in H. injection H as <-.
    apply Hvalidate. reflexivity.
Qed.

End Behaviour.

Lemma violations_have_group_severity_witness :
  exists issues,
    _check_network (fun _ => "") (init "") (PDict [("ttfb", PInt 250)])
    = Ok issues
    /\ Forall (has_severity "warning") issues.
Proof.
  eexists. split; [reflexivity |].
  apply (proj1 (proj2 (proj2
           (violations_have_group_severity (fun _ => "") (init "")
              (PDict [("ttfb", PInt 250)]) _)))).
  reflexivity.
Defined.

Lemma budgeted_entries_over_budget_are_reported_witness :
  exists issues,
    _check_bundle_sizes (fun _ => "") (init "") (PDict annotated_sizes)
    = Ok issues
    /\ map measured issues
       = [(Some (PStr "Javascript bundle"), Some (PInt 400))].
Proof.
  eexists. split; [reflexivity |].
  apply (proj1 (proj2 (proj2
           (budgeted_entries_over_budget_are_reported (fun _ => "")
              (init "") annotated_sizes)))).
  reflexivity.
Defined.

Lemma lighthouse_checks_every_key_witness :
  exists issues,
    _check_lighthouse (fun _ => "") (init "") (PDict scores_with_pwa)
    = Ok issues
    /\ map measured issues
       = [(Some (PStr "Lighthouse performance"), Some (PInt 85));
          (Some (PStr "Lighthouse pwa"), Some (PInt 40))].
Proof.
  apply (lighthouse_checks_every_key (fun _ => "") "" scores_with_pwa).
  intros k v Hin. simpl in Hin.
  destruct Hin as [H | [H | [H | []]]]; injection H as <- <-;
    eexists; (split; [reflexivity | lia]).
Defined.

Lemma cwv_reads_four_keys_in_table_order_witness :
  exists issues,
    _check_core_web_vitals (fun _ => "") (init "") (PDict shuffled_vitals)
    = Ok issues
    /\ map measured issues
       = [(Some (PStr "Largest Contentful Paint"), Some (PInt 2501));
          (Some (PStr "Cumulative Layout Shift"), Some (PInt 1))].
Proof.
  apply (proj2 (cwv_reads_four_keys_in_table_order (fun _ => "") ""
                  shuffled_vitals)).
  intros row v Hin Hv. simpl in Hin.
  destruct Hin as [<- | [<- | [<- | [<- | []]]]]; simpl in Hv;
    try discriminate Hv; injection Hv as <-; eexists;
    (split; [reflexivity | vm_compute; lia]).
Defined.

Lemma violations_are_group_issues_in_order_witness :
  exists r bundle network,
    validate_performance (fun _ => "") (init "")
      [("network", PDict [("ttfb", PInt 250)]);
       ("bundle_sizes", PDict annotated_sizes)]
    = Ok r
    /\ field "violations" r = Some (PList [bundle; network])
    /\ has_severity "critical" bundle
    /\ has_severity "warning" network.
Proof.
  eexists. eexists. eexists. split.
  - eapply (proj2 (violations_are_group_issues_in_order (fun _ => "")
                     (init "")
                     [("network", PDict [("ttfb", PInt 250)]);
                      ("bundle_sizes", PDict annotated_sizes)]));
      reflexivity.
  - split; [reflexivity |]. split; reflexivity.
Defined.

Lemma merge_approved_iff_no_violation_witness :
  exists r,
    process (fun _ => "") (init "") slow_ttfb = Ok r
    /\ field "valid" r = Some (PBool false)
    /\ field "approved_for_merge" r = None.
Proof.
  destruct (proj2 (merge_approved_iff_no_violation (fun _ => "") (init "")
                     slow_ttfb) _ eq_refl)
    as (r & violations & Hr & Hviolations & _ & Hcase).
  injection Hviolations as <-.
  exists r. split; [exact Hr |]. split; apply Hcase.
Defined.

Lemma guard_never_raises_key_or_zero_division_witness :
  (validate_performance (fun _ => "") (init "") scores_as_list
   = Raise AttributeError
   /\ (AttributeError = TypeError \/ AttributeError = AttributeError
       \/ AttributeError = OverflowError \/ AttributeError = ValueError))
  /\ (validate_performance (fun _ => "") (init "") endless_ttfb
      = Raise ValueError
      /\ (ValueError = TypeError \/ ValueError = AttributeError
          \/ ValueError = OverflowError \/ ValueError = ValueError)).
Proof.
  split; split.
  - reflexivity.
  - apply (guard_never_raises_key_or_zero_division (fun _ => "") ""
             scores_as_list AttributeError).
    left. reflexivity.
  - vm_compute. reflexivity.
  - apply (guard_never_raises_key_or_zero_division (fun _ => "") ""
             endless_ttfb ValueError).
    left. vm_compute. reflexivity.
Defined.

End PerformanceGuardBehaviour.

(** ** The PRD validator *)

Module PRDValidatorBehaviour.
Import PRDValidator PRDValidatorSpec PRDValidatorFacts.

Lemma for_extend_nil {A B : Type} (body : A -> result (list B))
  (xs : list A) (issues : list B) :
  for_extend body xs = Ok issues ->
  (issues = [] <-> forall x, In x xs -> body x = Ok []).
Proof.
  revert issues. induction xs as [| x xs IH]; simpl; intros issues H.
  - inv_bind. split; [intros _ y [] | reflexivity].
  - inv_bind. specialize (IH a0 Hstep0). split.
    + intros Hnil. apply app_eq_nil in Hnil. destruct Hnil as (-> & ->).
      intros y [<- | Hy]; [exact Hstep | apply IH; [reflexivity | exact Hy]].
    + intros Hall. rewrite (Hall x) in Hstep by (left; reflexivity).
      injection Hstep as <-. simpl. apply IH.
      intros y Hy. apply Hall. right. exact Hy.
Qed.

Lemma py_in_container (k : string) (v : pyval) :
  container v = true -> exists present, py_in k v = Ok present.
Proof. destruct v; try discriminate; intros _; eexists; reflexivity. Qed.

Lemma py_in_not_container (k : string) (v : pyval) :
  container v = false -> py_in k v = Raise TypeError.
Proof. destruct v; try discriminate; reflexivity. Qed.

Lemma report_absent_nil (msg : string -> string) (required : list string)
  (v : pyval) (issues : list string) :
  report_absent msg required v = Ok issues ->
  (issues = [] <-> covers required v = true).
Proof.
  intros H. destruct (container v) eqn:Hv.
  - unfold report_absent in H.
    rewrite (for_extend_nil _ _ _ H). unfold covers. rewrite forallb_forall.
    split; intros Hall k Hk;
      destruct (py_in_container k v Hv) as (present & Hin);
      specialize (Hall k Hk); unfold holds in *; rewrite Hin in *;
      cbn [bind] in *; destruct present; simpl in *; congruence.
  - destruct required as [| k required].
    + simpl in H. injection H as <-. split; reflexivity.
    + unfold report_absent in H. simpl in H.
      rewrite (py_in_not_container k v Hv) in H. discriminate H.
Qed.

Lemma _validate_features_nil (self : t) (features : pyval)
  (issues : list string) :
  _validate_features self features = Ok issues ->
  (issues = [] <-> features_complete features = true).
Proof.
  unfold _validate_features, features_complete. intros H.
  destruct (truthy features) eqn:Htruthy; cbn [negb bind andb] in *.
  - apply bind_Ok in H. destruct H as (empty & Hempty & H).
    apply bind_Ok in Hempty. destruct Hempty as (n & Hlen & Hempty).
    injection Hempty as <-.
    destruct (n =? 0)%nat eqn:Hn.
    + exfalso. apply Nat.eqb_eq in Hn. subst n.
      destruct features as [| | | | s | l | d]; try discriminate Hlen;
        cbn [py_len] in Hlen; injection Hlen as Hlen;
        [destruct s as [| c s] | destruct l | destruct d];
        try discriminate.
      destruct (chars_String c s) as (g & gs & Hchars).
      rewrite Hchars in Hlen. discriminate Hlen.
    + apply bind_Ok in H. destruct H as (a0 & Hiter & Hloop).
      rewrite Hiter.
      rewrite (for_extend_nil _ _ _ Hloop). rewrite forallb_forall.
      split.
      * intros Hall x Hx.
        destruct (In_nth_error _ _ Hx) as (i & Hi).
        assert (Hin : exists j, In (j, x) (enumerate a0)).
        { clear - Hx. unfold enumerate. generalize 0.
          induction a0 as [| y l IH]; [destruct Hx |].
          intros n. destruct Hx as [-> | Hx].
          - exists n. left. reflexivity.
          - destruct (IH Hx (S n)) as (j & Hj). exists j. right. exact Hj. }
        destruct Hin as (j & Hj). specialize (Hall (j, x) Hj).
        cbn beta iota in Hall.
        apply (report_absent_nil _ _ _ _ Hall). reflexivity.
      * intros Hall [j x] Hjx. cbn beta iota.
        pose proof (enumerate_from_In _ _ _ _ Hjx) as Hx.
        specialize (Hall x Hx).
        destruct (report_absent (missing_feature_field_msg j)
                    required_feature_fields x) as [ys | e] eqn:Hys.
        -- f_equal. apply (report_absent_nil _ _ _ _ Hys). exact Hall.
        -- exfalso. destruct (container x) eqn:Hc.
           ++ destruct (report_absent_total (missing_feature_field_msg j)
                          required_feature_fields x Hc) as (zs & Hzs).
              congruence.
           ++ unfold covers, holds, required_feature_fields in Hall.
              cbn [forallb] in Hall.
              rewrite (py_in_not_container _ _ Hc) in Hall.
              discriminate Hall.
  - injection H as <-. split; discriminate.
Qed.

Lemma missing_sections_nil (self : t) (prd : pydict) :
  missing_sections self prd = []
  <-> forallb (fun section => has_key section prd) (required_sections self)
      = true.
Proof.
  unfold missing_sections.
  induction (required_sections self) as [| s l IH]; simpl.
  - tauto.
  - destruct (has_key s prd); simpl; [exact IH |].
    split; discriminate.
Qed.

Lemma extend_if_present_part (key : string) (prd : pydict)
  (check : pyval -> result (list string)) (issues : list string) :
  extend_if_present key prd check issues
  = (found <- part_issues key check prd ;; Ok (issues ++ found)).
Proof.
  unfold extend_if_present, part_issues.
  destruct (has_key key prd); [reflexivity |].
  cbn [bind]. rewrite app_nil_r. reflexivity.
Qed.

(** The issue list of [validate_prd], part by part. *)
Lemma validate_prd_parts (self : t) (prd : pydict) (answer : pyval) :
  validate_prd self prd = Ok answer ->
  exists f m c,
    part_issues "features" (_validate_features self) prd = Ok f
    /\ part_issues "success_metrics" (_validate_metrics self) prd = Ok m
    /\ part_issues "constraints" (_validate_constraints self) prd = Ok c
    /\ answer
       = PDict
           [("valid",
             PBool (List.length (missing_sections self prd ++ f ++ m ++ c)
                    =? 0)%nat);
            ("issues",
             PList (map PStr (missing_sections self prd ++ f ++ m ++ c)));
            ("timestamp", PStr (timestamp self))].
Proof.
  unfold validate_prd. intros H.
  apply bind_Ok in H. destruct H as (i1 & H1 & H).
  apply bind_Ok in H. destruct H as (i2 & H2 & H).
  apply bind_Ok in H. destruct H as (i3 & H3 & H).
  rewrite extend_if_present_part in H1, H2, H3.
  apply bind_Ok in H1. destruct H1 as (f & Hf & H1). injection H1 as <-.
  apply bind_Ok in H2. destruct H2 as (m & Hm & H2). injection H2 as <-.
  apply bind_Ok in H3. destruct H3 as (c & Hc & H3). injection H3 as <-.
  exists f, m, c. repeat (split; [assumption |]).
  injection H as <-. simpl. rewrite <- !app_assoc. reflexivity.
Qed.

Lemma part_issues_nil (key : string) (check : pyval -> result (list string))
  (ok : pyval -> bool) (prd : pydict) (issues : list string) :
  (forall v found, check v = Ok found -> (found = [] <-> ok v = true)) ->
  part_issues key check prd = Ok issues ->
  (issues = [] <-> part_ok key ok prd = true).
Proof.
  intros Hcheck. unfold part_issues, part_ok.
  destruct (has_key key prd); simpl; intros H.
  - apply Hcheck. exact H.
  - injection H as <-. tauto.
Qed.

Lemma valid_field_of_answer (self : t) (prd : pydict) (answer : pyval) :
  validate_prd self prd = Ok answer ->
  field "valid" answer = Some (PBool (prd_complete self prd)).
Proof.
  intros H. apply validate_prd_parts in H.
  destruct H as (f & m & c & Hf & Hm & Hc & ->). cbn [field lookup String.eqb
    Ascii.eqb Bool.eqb]. do 2 f_equal.
  apply (part_issues_nil _ _ features_complete) in Hf;
    [| apply _validate_features_nil].
  apply (part_issues_nil _ _ (covers required_metric_categories)) in Hm;
    [| intros v found; apply report_absent_nil].
  apply (part_issues_nil _ _ (covers required_constraint_categories)) in Hc;
    [| intros v found; apply report_absent_nil].
  pose proof (missing_sections_nil self prd) as Hs.
  unfold prd_complete.
  destruct (missing_sections self prd) as [| s0 ms].
  - rewrite (proj1 Hs eq_refl). cbn [app andb].
    destruct f as [| f0 f].
    + rewrite (proj1 Hf eq_refl). cbn [app andb].
      destruct m as [| m0 m].
      * rewrite (proj1 Hm eq_refl). cbn [app andb].
        destruct c as [| c0 c].
        -- rewrite (proj1 Hc eq_refl). reflexivity.
        -- destruct (part_ok "constraints" _ prd); [| reflexivity].
           destruct Hc as (_ & Hc). discriminate (Hc eq_refl).
      * destruct (part_ok "success_metrics" _ prd);
          [| rewrite andb_false_l; reflexivity].
        destruct Hm as (_ & Hm). discriminate (Hm eq_refl).
    + destruct (part_ok "features" _ prd);
        [| rewrite !andb_false_l; reflexivity].
      destruct Hf as (_ & Hf). discriminate (Hf eq_refl).
  - destruct (forallb _ _); [| reflexivity].
    destruct Hs as (_ & Hs). discriminate (Hs eq_refl).
Qed.

(** X8.  When [validate_prd] answers, [valid] is true if and only if the
    document has every required section and each of [features],
    [success_metrics] and [constraints] that is present is complete: a true
    feature list whose entries all have the four fields, metrics with the
    five categories, constraints with the four.  The issue list is empty
    in exactly that case. *)
Theorem valid_iff_complete (self : t) (prd : pydict) (answer : pyval) :
  validate_prd self prd = Ok answer ->
  field "valid" answer = Some (PBool (prd_complete self prd))
  /\ (field "issues" answer = Some (PList [])
      <-> prd_complete self prd = true).
Proof.
  intros H. pose proof (valid_field_of_answer self prd answer H) as Hvalid.
  split; [exact Hvalid |].
  apply validate_prd_parts in H.
  destruct H as (f & m & c & _ & _ & _ & ->).
  cbn [field lookup String.eqb Ascii.eqb Bool.eqb] in *.
  injection Hvalid as Hvalid. rewrite <- Hvalid.
  destruct (missing_sections self prd ++ f ++ m ++ c) as [| issue issues].
  - split; reflexivity.
  - split; discriminate.
Qed.

(** No issue about a section or a category reads ["No features
    defined"]. *)
Lemma missing_is_not_no_features (issues : list string) :
  Forall (fun issue => String.prefix "Missing " issue = true) issues ->
  ~ In "No features defined" issues.
Proof.
  intros Hall Hin. rewrite Forall_forall in Hall.
  apply Hall in Hin. discriminate Hin.
Qed.

Lemma missing_sections_prefix (self : t) (prd : pydict) :
  Forall (fun issue => String.prefix "Missing " issue = true)
    (missing_sections self prd).
Proof.
  rewrite missing_sections_filter. apply Forall_forall. intros issue Hin.
  apply in_map_iff in Hin. destruct Hin as (section & <- & _).
  destruct section; reflexivity.
Qed.

Lemma part_issues_prefix (key : string) (msg : string -> string)
  (required : list string) (prd : pydict) (issues : list string) :
  (forall k, String.prefix "Missing " (msg k) = true) ->
  part_issues key (report_absent msg required) prd = Ok issues ->
  Forall (fun issue => String.prefix "Missing " issue = true) issues.
Proof.
  intros Hmsg. unfold part_issues. destruct (has_key key prd).
  - apply report_absent_Forall. exact Hmsg.
  - intros H. injection H as <-. constructor.
Qed.

(** X9.  A document whose [features] key is present with a false value
    (an empty list, null) is invalid and gets the issue ["No features
    defined"], whatever else it contains.  A document without the key gets
    no issue from the feature check: its issues are the missing sections,
    then those of the metrics, then those of the constraints, and ["No
    features defined"] is not among them. *)
Theorem empty_feature_list_is_an_issue (self : t) (prd : pydict)
  (answer : pyval) :
  validate_prd self prd = Ok answer ->
  (forall features,
      lookup "features" prd = Some features ->
      truthy features = false ->
      field "valid" answer = Some (PBool false)
      /\ exists issues,
           field "issues" answer = Some (PList (map PStr issues))
           /\ In "No features defined" issues)
  /\ (lookup "features" prd = None ->
      exists metrics constraints,
        part_issues "success_metrics" (_validate_metrics self) prd
        = Ok metrics
        /\ part_issues "constraints" (_validate_constraints self) prd
           = Ok constraints
        /\ field "issues" answer
           = Some (PList (map PStr (missing_sections self prd
                                    ++ metrics ++ constraints)))
        /\ ~ In "No features defined"
               (missing_sections self prd ++ metrics ++ constraints)).
Proof.
  intros H. apply validate_prd_parts in H.
  destruct H as (f & m & c & Hf & Hm & Hc & ->).
  unfold part_issues at 1 in Hf. unfold has_key, dict_get in Hf.
  split.
  - intros features Hlookup Hfalse. rewrite Hlookup in Hf.
    unfold _validate_features in Hf. rewrite Hfalse in Hf.
    cbn [negb bind app] in Hf. injection Hf as <-.
    split.
    + cbn [field lookup String.eqb Ascii.eqb Bool.eqb]. do 2 f_equal.
      rewrite length_app. cbn [app List.length].
      rewrite Nat.add_succ_r. reflexivity.
    + eexists. split; [reflexivity |].
      apply in_or_app. right. left. reflexivity.
  - intros Habsent. rewrite Habsent in Hf. injection Hf as <-.
    exists m, c. split; [exact Hm |]. split; [exact Hc |].
    split; [reflexivity |].
    apply missing_is_not_no_features.
    apply Forall_app. split; [apply missing_sections_prefix |].
    apply Forall_app. split.
    + revert Hm. apply part_issues_prefix.
      intros k. destruct k; reflexivity.
    + revert Hc. apply part_issues_prefix.
      intros k. destruct k; reflexivity.
Qed.

(** A loop raises [TypeError] when one round does and the others return
    or raise the same. *)
Lemma for_extend_raises {A B : Type} (body : A -> result (list B))
  (xs : list A) :
  (forall x, In x xs -> (exists ys, body x = Ok ys)
                        \/ body x = Raise TypeError) ->
  (exists x, In x xs /\ body x = Raise TypeError) ->
  for_extend body xs = Raise TypeError.
Proof.
  induction xs as [| x xs IH]; simpl; intros Hall (y & Hy & Hraise).
  - destruct Hy.
  - destruct (Hall x (or_introl eq_refl)) as [(ys & Hys) | Hx];
      [| rewrite Hx; reflexivity].
    rewrite Hys. cbn [bind]. rewrite IH; [reflexivity | |].
    + intros z Hz. apply Hall. right. exact Hz.
    + destruct Hy as [Hy | Hy]; [subst y; congruence |]. exists y. auto.
Qed.

Lemma report_absent_raises (msg : string -> string) (k : string)
  (required : list string) (v : pyval) :
  container v = false -> report_absent msg (k :: required) v = Raise TypeError.
Proof.
  intros Hv. unfold report_absent. simpl.
  rewrite (py_in_not_container k v Hv). reflexivity.
Qed.

Lemma enumerate_from_nth {A : Type} (i : nat) (x : A) (xs : list A) :
  In x xs -> exists j, In (j, x) (enumerate_from i xs).
Proof.
  revert i. induction xs as [| y l IH]; intros i Hx; [destruct Hx |].
  destruct Hx as [-> | Hx].
  - exists i. left. reflexivity.
  - destruct (IH (S i) Hx) as (j & Hj). exists j. right. exact Hj.
Qed.

Lemma _validate_features_raises (self : t) (features : pyval) :
  features_typed features = false ->
  _validate_features self features = Raise TypeError.
Proof.
  unfold features_typed, _validate_features. intros H.
  apply orb_false_iff in H. destruct H as (Htruthy & Hshape).
  apply negb_false_iff in Htruthy. rewrite Htruthy. cbn [negb].
  destruct features as [| b | z | f | s | l | d];
    try discriminate Hshape; try reflexivity.
  destruct l as [| x l]; [discriminate Htruthy |].
  cbn [py_len bind List.length Nat.eqb py_iter].
  apply for_extend_raises.
  - intros [j y] _. destruct (container y) eqn:Hy.
    + left. apply report_absent_total. exact Hy.
    + right. apply report_absent_raises. exact Hy.
  - assert (Hbad : exists y, In y (x :: l) /\ container y = false).
    { clear - Hshape. induction (x :: l) as [| y l' IH];
        [discriminate Hshape |].
      cbn [forallb] in Hshape. destruct (container y) eqn:Hy.
      - destruct (IH Hshape) as (z & Hz & Hc). exists z. split;
          [right; exact Hz | exact Hc].
      - exists y. split; [left; reflexivity | exact Hy]. }
    destruct Hbad as (y & Hy & Hc).
    destruct (enumerate_from_nth 0 y (x :: l) Hy) as (j & Hj).
    exists (j, y). split; [exact Hj |].
    apply report_absent_raises. exact Hc.
Qed.

Lemma part_issues_typed (key : string) (check : pyval -> result (list string))
  (typed : pyval -> bool) (prd : pydict) :
  (forall v, typed v = true -> exists found, check v = Ok found) ->
  (forall v, typed v = false -> check v = Raise TypeError) ->
  if negb (has_key key prd) || typed (dict_get key prd)
  then exists found, part_issues key check prd = Ok found
  else part_issues key check prd = Raise TypeError.
Proof.
  intros Hok Hraise. unfold part_issues.
  destruct (has_key key prd); cbn [negb orb].
  - destruct (typed (dict_get key prd)) eqn:Ht; [apply Hok | apply Hraise];
      exact Ht.
  - eexists. reflexivity.
Qed.

(** X10.  [validate_prd] answers exactly on the documents whose optional
    parts have a type it can go through ([prd_typed]); on every other
    document it raises [TypeError]. *)
Theorem validate_prd_raises_iff_ill_typed (self : t) (prd : pydict) :
  if prd_typed prd
  then exists answer, validate_prd self prd = Ok answer
  else validate_prd self prd = Raise TypeError.
Proof.
  unfold prd_typed, validate_prd.
  rewrite !extend_if_present_part.
  pose proof (part_issues_typed "features" (_validate_features self)
                features_typed prd (_validate_features_total self)
                (_validate_features_raises self)) as Hf.
  pose proof (part_issues_typed "success_metrics" (_validate_metrics self)
                container prd
                (report_absent_total _ _)
                (report_absent_raises _ _ _)) as Hm.
  pose proof (part_issues_typed "constraints" (_validate_constraints self)
                container prd
                (report_absent_total _ _)
                (report_absent_raises _ _ _)) as Hc.
  destruct (negb (has_key "features" prd) || _).
  - destruct Hf as (f & ->). cbn [bind andb].
    rewrite extend_if_present_part.
    destruct (negb (has_key "success_metrics" prd) || _).
    + destruct Hm as (m & ->). cbn [bind andb].
      rewrite extend_if_present_part.
      destruct (negb (has_key "constraints" prd) || _).
      * destruct Hc as (c & ->). eexists. reflexivity.
      * rewrite Hc. reflexivity.
    + rewrite Hm. reflexivity.
  - rewrite Hf. reflexivity.
Qed.

(** X11.  For a dictionary of metrics, and for one of constraints, the
    check reports the required categories that are no key of it, each once
    and in the order of the required list; the values are not looked at. *)
Theorem categories_reported_once_in_order (self : t) (d : pydict) :
  _validate_metrics self (PDict d)
  = Ok (map missing_metric_msg
          (filter (fun category => negb (has_key category d))
             required_metric_categories))
  /\ _validate_constraints self (PDict d)
     = Ok (map missing_constraint_msg
             (filter (fun category => negb (has_key category d))
                required_constraint_categories)).
Proof. split; apply report_absent_dict. Qed.

(** X12.  [process] fails exactly as [validate_prd] does; when it
    answers, the document is ready for implementation, with the fixed
    summary, if and only if it is complete, and otherwise the answer
    carries the issues of [validate_prd] and the action required. *)
Theorem ready_iff_valid (self : t) (prd : pydict) :
  (forall e, validate_prd self prd = Raise e -> process self prd = Raise e)
  /\ (forall validation,
        validate_prd self prd = Ok validation ->
        exists r,
          process self prd = Ok r
          /\ field "valid" r = Some (PBool (prd_complete self prd))
          /\ if prd_complete self prd
             then field "ready_for_implementation" r = Some (PBool true)
                  /\ field "prd_summary" r = Some (get_prd_summary self)
                  /\ field "issues" r = None
             else field "ready_for_implementation" r = None
                  /\ field "prd_summary" r = None
                  /\ field "issues" r = field "issues" validation
                  /\ field "action_required" r
                     = Some (PStr "Fix PRD issues before proceeding")).
Proof.
  split.
  - intros e H. unfold process. rewrite H. reflexivity.
  - intros validation H. unfold process. rewrite H.
    pose proof (valid_field_of_answer self prd validation H) as Hvalid.
    apply validate_prd_parts in H.
    destruct H as (f & m & c & _ & _ & _ & ->).
    cbn [field lookup String.eqb Ascii.eqb Bool.eqb] in Hvalid.
    injection Hvalid as Hvalid.
    cbn [bind py_getitem lookup String.eqb Ascii.eqb Bool.eqb truthy].
    rewrite Hvalid.
    destruct (prd_complete self prd); eexists;
      (split; [reflexivity |]); repeat split; reflexivity.
Qed.

Lemma valid_iff_complete_witness :
  exists answer,
    validate_prd (init default_prd_path "") complete_prd = Ok answer
    /\ field "valid" answer = Some (PBool true).
Proof.
  eexists. split; [reflexivity |].
  apply (valid_iff_complete (init default_prd_path "") complete_prd).
  reflexivity.
Defined.

Lemma empty_feature_list_is_an_issue_witness :
  (exists answer,
      validate_prd (init default_prd_path "") prd_without_features
      = Ok answer
      /\ field "valid" answer = Some (PBool false))
  /\ (exists answer,
        validate_prd (init default_prd_path "") sections_only_prd
        = Ok answer
        /\ field "issues" answer = Some (PList [])).
Proof.
  split.
  - eexists. split; [reflexivity |].
    apply (proj1 (empty_feature_list_is_an_issue
                    (init default_prd_path "") prd_without_features _
                    eq_refl) (PList [])); reflexivity.
  - eexists. split; [reflexivity |].
    destruct (proj2 (empty_feature_list_is_an_issue
                       (init default_prd_path "") sections_only_prd _
                       eq_refl) eq_refl)
      as (metrics & constraints & Hm & Hc & Hissues & _).
    injection Hm as <-. injection Hc as <-. exact Hissues.
Defined.

Lemma ready_iff_valid_witness :
  exists r,
    process (init default_prd_path "") complete_prd = Ok r
    /\ field "ready_for_implementation" r = Some (PBool true).
Proof.
  destruct (proj2 (ready_iff_valid (init default_prd_path "") complete_prd)
              _ eq_refl) as (r & Hr & _ & Hcase).
  exists r. split; [exact Hr | apply Hcase].
Defined.

End PRDValidatorBehaviour.

(** ** Writing into a dictionary *)

Lemma lookup_dict_set_eq (k : string) (v : pyval) (d : pydict) :
  lookup k (dict_set k v d) = Some v.
Proof.
  induction d as [| [k' v'] d IH]; simpl.
  - rewrite String.eqb_refl. reflexivity.
  - destruct (String.eqb k k') eqn:Hk; simpl; rewrite Hk; [reflexivity | exact IH].
Qed.

Lemma lookup_dict_set_neq (k k0 : string) (v : pyval) (d : pydict) :
  k0 <> k -> lookup k0 (dict_set k v d) = lookup k0 d.
Proof.
  intros Hne. induction d as [| [k' v'] d IH]; simpl.
  - apply String.eqb_neq in Hne. rewrite Hne. reflexivity.
  - destruct (String.eqb k k') eqn:Hk; simpl.
    + apply String.eqb_eq in Hk. subst k'.
      apply String.eqb_neq in Hne. rewrite Hne. reflexivity.
    + rewrite IH. reflexivity.
Qed.

Lemma dict_set_keys (k : string) (v : pyval) (d : pydict) :
  map fst (dict_set k v d)
  = if has_key k d then map fst d else map fst d ++ [k].
Proof.
  unfold has_key. induction d as [| [k' v'] d IH]; simpl.
  - reflexivity.
  - destruct (String.eqb k k') eqn:Hk; simpl; [reflexivity |].
    rewrite IH. destruct (lookup k d); reflexivity.
Qed.

Lemma dict_set_twice (k : string) (v w : pyval) (d : pydict) :
  dict_set k w (dict_set k v d) = dict_set k w d.
Proof.
  induction d as [| [k' v'] d IH]; simpl.
  - rewrite String.eqb_refl. reflexivity.
  - destruct (String.eqb k k') eqn:Hk; simpl; rewrite Hk; [reflexivity |].
    rewrite IH. reflexivity.
Qed.

Lemma has_key_dict_set (k k0 : string) (v : pyval) (d : pydict) :
  has_key k0 (dict_set k v d) = String.eqb k0 k || has_key k0 d.
Proof.
  unfold has_key. destruct (String.eqb k0 k) eqn:Hk.
  - apply String.eqb_eq in Hk. subst k0. rewrite lookup_dict_set_eq. reflexivity.
  - apply String.eqb_neq in Hk. rewrite lookup_dict_set_neq by exact Hk.
    reflexivity.
Qed.

(** ** The request hook *)

Module RequestHookBehaviour.
Import UserPromptSubmitValidator RequestHookSpec OrchestratorSpec.

Lemma first_missing_forallb (required : list string) (request : pydict) :
  forallb (fun f => has_key f request) required = true
  <-> first_missing required request = None.
Proof.
  rewrite first_missing_None, forallb_forall. tauto.
Qed.

Lemma validate_request_accepts (self : t) (request : pydict) :
  validate_request self request
  = if has_required request && known_type request
    then PDict [("valid", PBool true); ("timestamp", PStr (timestamp self))]
    else validate_request self request.
Proof.
  destruct (has_required request && known_type request) eqn:Hok;
    [| reflexivity].
  apply andb_true_iff in Hok. destruct Hok as (Hall & Hknown).
  unfold validate_request. unfold has_required in Hall.
  rewrite (proj1 (first_missing_forallb _ _) Hall).
  unfold known_type in Hknown. rewrite Hknown. reflexivity.
Qed.

Lemma validate_request_valid (self : t) (request : pydict) :
  field "valid" (validate_request self request)
  = Some (PBool (has_required request && known_type request)).
Proof.
  unfold validate_request, has_required, known_type.
  destruct (first_missing required_fields request) as [f |] eqn:Hreq.
  - destruct (forallb _ required_fields) eqn:Hall; [| reflexivity].
    apply first_missing_forallb in Hall. congruence.
  - rewrite (proj2 (first_missing_forallb _ _) Hreq). cbn [andb].
    destruct (existsb _ _); reflexivity.
Qed.

(** X13.  The hook accepts a request if and only if it has the three
    required fields and its type is one of the four valid types; a request
    that lacks a field is rejected for that field, whatever its type. *)
Theorem request_accepted_iff_fields_and_type (self : t) (request : pydict) :
  field "valid" (validate_request self request)
  = Some (PBool (has_required request && known_type request))
  /\ (has_required request && known_type request = true ->
      validate_request self request
      = PDict [("valid", PBool true); ("timestamp", PStr (timestamp self))])
  /\ (has_required request = false ->
      exists f, In f required_fields
                /\ has_key f request = false
                /\ field "error" (validate_request self request)
                   = Some (PStr ("Missing required field: " +++ f))).
Proof.
  split; [apply validate_request_valid |]. split.
  - intros Hok. rewrite validate_request_accepts, Hok. reflexivity.
  - intros Hmissing. unfold validate_request.
    destruct (first_missing required_fields request) as [f |] eqn:Hreq.
    + destruct (first_missing_Some _ _ _ Hreq) as (Hin & Hkey).
      exists f. repeat split; assumption || reflexivity.
    + apply first_missing_forallb in Hreq. unfold has_required in Hmissing.
      congruence.
Qed.

(** X14.  [inject_context] sets the key [injected_context] to the hook's
    own context, replacing a value the caller put there, and changes no
    other field; the key keeps its place or goes last, and injecting twice
    is injecting once. *)
Theorem inject_context_sets_one_key (self : t) (request : pydict) :
  lookup "injected_context" (inject_context self request)
  = Some (context self)
  /\ (forall k, k <> "injected_context" ->
                lookup k (inject_context self request) = lookup k request)
  /\ keys (inject_context self request)
     = (if has_key "injected_context" request
        then keys request
        else keys request ++ ["injected_context"])
  /\ inject_context self (inject_context self request)
     = inject_context self request.
Proof.
  unfold inject_context, keys. fold (context self).
  split; [apply lookup_dict_set_eq |].
  split; [intros k Hk; apply lookup_dict_set_neq; exact Hk |].
  split; [apply dict_set_keys | apply dict_set_twice].
Qed.

Lemma process_cases (self : t) (request : pydict) :
  process self request
  = Ok (if has_required request && known_type request
        then (PDict
                [("valid", PBool true);
                 ("request", PDict (inject_context self request));
                 ("timestamp", PStr (timestamp self));
                 ("ready_for_orchestrator", PBool true)],
              inject_context self request)
        else (validate_request self request, request)).
Proof.
  unfold process.
  pose proof (validate_request_valid self request) as Hvalid.
  destruct (validate_request self request) as [| | | | | | d] eqn:Hv;
    try discriminate Hvalid.
  cbn [field] in Hvalid. cbn [py_getitem]. rewrite Hvalid. cbn [bind truthy].
  destruct (has_required request && known_type request); reflexivity.
Qed.

(** X15.  [process] never fails.  A rejected request is left as it was
    and the answer is the validation itself, with no request and no
    readiness flag; an accepted request is enriched in place, and the
    answer carries that enriched request. *)
Theorem process_enriches_accepted_requests_only (self : t)
  (request : pydict) :
  process self request
  = Ok (if has_required request && known_type request
        then (PDict
                [("valid", PBool true);
                 ("request", PDict (inject_context self request));
                 ("timestamp", PStr (timestamp self));
                 ("ready_for_orchestrator", PBool true)],
              inject_context self request)
        else (validate_request self request, request))
  /\ (has_required request && known_type request = false ->
      field "request" (validate_request self request) = None
      /\ field "ready_for_orchestrator" (validate_request self request)
         = None).
Proof.
  split; [apply process_cases |].
  intros Hno. unfold validate_request.
  unfold has_required, known_type in Hno.
  destruct (first_missing required_fields request) as [f |] eqn:Hreq;
    [split; reflexivity |].
  rewrite (proj2 (first_missing_forallb _ _) Hreq) in Hno.
  cbn [andb] in Hno. rewrite Hno. split; reflexivity.
Qed.

(** X16.  The request the hook hands over passes the request validation
    of the orchestrator, but the injected context is no [prd] for it: the
    orchestrator accepts the enriched request if and only if the original
    request had a true [prd] of its own, and answers ["PRD not provided"]
    otherwise. *)
Theorem enriched_request_still_needs_prd (self : t) (now uuid4 : string)
  (request enriched : pydict) (answer : pyval) :
  process self request = Ok (answer, enriched) ->
  field "valid" answer = Some (PBool true) ->
  enriched = inject_context self request
  /\ Orchestrator._validate_request (Orchestrator.init now) enriched
     = request_ok
  /\ dict_get "prd" enriched = dict_get "prd" request
  /\ Orchestrator.orchestrate (Orchestrator.init now) uuid4 enriched
     = Ok (if truthy (dict_get "prd" request)
           then accepted (Orchestrator.init now)
                  (Orchestrator._generate_id (Orchestrator.init now) uuid4)
           else Orchestrator.rejected (Orchestrator.init now) prd_missing).
Proof.
  intros Hprocess Hvalid. rewrite process_cases in Hprocess.
  destruct (has_required request && known_type request) eqn:Hok.
  2: { injection Hprocess as <- <-.
       rewrite validate_request_valid, Hok in Hvalid. discriminate Hvalid. }
  injection Hprocess as _ <-.
  apply andb_true_iff in Hok. destruct Hok as (Hall & _).
  assert (Hreq : first_missing required (inject_context self request) = None).
  { apply first_missing_None. intros f Hf.
    unfold inject_context. rewrite has_key_dict_set.
    unfold has_required in Hall. rewrite forallb_forall in Hall.
    rewrite (Hall f Hf). apply orb_true_r. }
  assert (Hprd : dict_get "prd" (inject_context self request)
                 = dict_get "prd" request).
  { unfold dict_get, inject_context.
    rewrite lookup_dict_set_neq by discriminate. reflexivity. }
  split; [reflexivity |]. split.
  - unfold Orchestrator._validate_request. fold required. rewrite Hreq.
    reflexivity.
  - split; [exact Hprd |]. unfold Orchestrator.orchestrate.
    destruct (truthy (dict_get "prd" request)) eqn:Htruthy.
    + rewrite OrchestratorFacts.orchestrate_run_accepted;
        [reflexivity | exact Hreq | rewrite Hprd; exact Htruthy].
    + rewrite OrchestratorFacts.orchestrate_run_no_prd;
        [reflexivity | exact Hreq | rewrite Hprd; exact Htruthy].
Qed.

Lemma request_accepted_iff_fields_and_type_witness :
  validate_request (init "./product/prd.md" "now") feature_request
  = PDict [("valid", PBool true); ("timestamp", PStr "now")].
Proof.
  apply (request_accepted_iff_fields_and_type
           (init "./product/prd.md" "now") feature_request).
  reflexivity.
Defined.

Lemma inject_context_sets_one_key_witness :
  lookup "action" (inject_context (init "./product/prd.md" "") feature_request)
  = Some (PStr "add")
  /\ lookup "injected_context"
       (inject_context (init "./product/prd.md" "") feature_request)
     = Some (context (init "./product/prd.md" "")).
Proof.
  destruct (inject_context_sets_one_key (init "./product/prd.md" "")
              feature_request) as (Hctx & Hother & _).
  split; [| exact Hctx].
  rewrite (Hother "action"); [reflexivity | discriminate].
Defined.

Lemma process_enriches_accepted_requests_only_witness :
  field "request" (validate_request (init "./product/prd.md" "") [])
  = None.
Proof.
  apply (proj2 (process_enriches_accepted_requests_only
                  (init "./product/prd.md" "") [])).
  reflexivity.
Defined.

Lemma enriched_request_still_needs_prd_witness :
  exists answer enriched,
    process (init "./product/prd.md" "") feature_request
    = Ok (answer, enriched)
    /\ Orchestrator.orchestrate (Orchestrator.init "") "0123abcd-0000"
         enriched
       = Ok (Orchestrator.rejected (Orchestrator.init "") prd_missing).
Proof.
  eexists. eexists. split; [reflexivity |].
  apply (enriched_request_still_needs_prd (init "./product/prd.md" "") ""
           "0123abcd-0000" feature_request _ _ eq_refl eq_refl).
Defined.

End RequestHookBehaviour.

(** ** The orchestrator *)

Module OrchestratorBehaviour.
Import Orchestrator OrchestratorSpec OrchestratorFacts.

Lemma has_fields_first_missing (request : pydict) :
  has_fields request = true <-> first_missing required request = None.
Proof.
  unfold has_fields. rewrite first_missing_None, forallb_forall. tauto.
Qed.

(** X17.  [orchestrate] never fails and has three outcomes: a request
    that lacks a field is rejected for the first such field with no phase
    recorded, even when it lacks a PRD too; a request with the fields and a
    false [prd] is rejected after one phase; any other request is accepted
    with seven phases. *)
Theorem orchestrate_has_three_outcomes (self : t) (uuid4 : string)
  (request : pydict) :
  exists r phases,
    orchestrate_run self uuid4 request = Ok (r, phases)
    /\ orchestrate self uuid4 request = Ok r
    /\ field "valid" r
       = Some (PBool (has_fields request && truthy (dict_get "prd" request)))
    /\ List.length phases = phases_written request
    /\ (has_fields request = false ->
        exists f,
          first_missing required request = Some f
          /\ field "error" r
             = Some (PDict [("valid", PBool false);
                            ("error", PStr ("Missing field: " +++ f))]))
    /\ (has_fields request = true ->
        truthy (dict_get "prd" request) = false ->
        field "error" r = Some prd_missing).
Proof.
  unfold orchestrate, phases_written.
  destruct (first_missing required request) as [f |] eqn:Hreq.
  - assert (Hno : has_fields request = false).
    { destruct (has_fields request) eqn:H; [| reflexivity].
      apply has_fields_first_missing in H. congruence. }
    rewrite (orchestrate_run_missing_field _ _ _ _ Hreq), Hno.
    eexists. eexists. split; [reflexivity |]. split; [reflexivity |].
    split; [reflexivity |]. split; [reflexivity |]. split.
    + intros _. exists f. split; reflexivity.
    + discriminate.
  - rewrite (proj2 (has_fields_first_missing request) Hreq).
    destruct (truthy (dict_get "prd" request)) eqn:Hprd.
    + rewrite (orchestrate_run_accepted _ _ _ Hreq Hprd).
      eexists. eexists. split; [reflexivity |]. split; [reflexivity |].
      split; [reflexivity |]. split; [reflexivity |].
      split; discriminate.
    + rewrite (orchestrate_run_no_prd _ _ _ Hreq Hprd).
      eexists. eexists. split; [reflexivity |]. split; [reflexivity |].
      split; [reflexivity |]. split; [reflexivity |].
      split; [discriminate | reflexivity].
Qed.

(** X18.  The phases of an accepted request are the seven workflow
    phases in the order of [workflow_phases], the two validations
    completed, planning ready and the rest pending; the top-level agent
    assignments are those of the implement phase, and the request
    identifier is the one generated for the call. *)
Theorem accepted_plan_follows_workflow (now uuid4 : string)
  (request : pydict) (r : pyval) :
  orchestrate (init now) uuid4 request = Ok r ->
  field "valid" r = Some (PBool true) ->
  exists plan phases implement,
    field "execution_plan" r = Some plan
    /\ field "phases" plan = Some (PList phases)
    /\ map (field "name") phases
       = map (fun phase => Some (PStr (phase_value phase)))
           (workflow_phases (init now))
    /\ map (field "status") phases
       = map (fun status => Some (PStr status)) accepted_statuses
    /\ nth_error phases 3 = Some implement
    /\ field "assignments" implement = field "agent_assignments" r
    /\ field "request_id" plan = Some (PStr (_generate_id (init now) uuid4)).
Proof.
  intros H Hvalid. apply orchestrate_valid_inv in H; [| exact Hvalid].
  subst r. eexists. eexists. eexists.
  repeat (split; [reflexivity |]). reflexivity.
Qed.

(** X19.  The orchestrator does not validate the PRD: a request with the
    three fields whose [prd] is a non-empty mapping is accepted even when
    [PRDValidator.validate_prd] finds that mapping invalid. *)
Theorem orchestrator_does_not_validate_the_prd (path now uuid4 : string)
  (request d : pydict) (verdict : pyval) :
  has_fields request = true ->
  lookup "prd" request = Some (PDict d) ->
  d <> [] ->
  PRDValidator.validate_prd (PRDValidator.init path now) d = Ok verdict ->
  field "valid" verdict = Some (PBool false) ->
  orchestrate (init now) uuid4 request
  = Ok (accepted (init now) (_generate_id (init now) uuid4)).
Proof.
  intros Hfields Hprd Hne _ _. unfold orchestrate.
  rewrite orchestrate_run_accepted; [reflexivity | |].
  - apply has_fields_first_missing. exact Hfields.
  - unfold dict_get. rewrite Hprd. destruct d; [congruence | reflexivity].
Qed.

Lemma orchestrate_has_three_outcomes_witness :
  exists r,
    orchestrate (init "") "0123abcd-0000" [("prd", PNone)] = Ok r
    /\ field "error" r
       = Some (PDict [("valid", PBool false);
                      ("error", PStr "Missing field: type")]).
Proof.
  destruct (orchestrate_has_three_outcomes (init "") "0123abcd-0000"
              [("prd", PNone)])
    as (r & phases & _ & Hr & _ & _ & Hmissing & _).
  destruct (Hmissing eq_refl) as (f & Hf & Herror).
  injection Hf as <-.
  exists r. split; [exact Hr | exact Herror].
Defined.

Lemma accepted_plan_follows_workflow_witness :
  exists r plan phases,
    orchestrate (init "") "0123abcd-0000" request_with_thin_prd = Ok r
    /\ field "execution_plan" r = Some plan
    /\ field "phases" plan = Some (PList phases)
    /\ List.length phases = 7.
Proof.
  destruct (accepted_plan_follows_workflow "" "0123abcd-0000"
              request_with_thin_prd _ eq_refl eq_refl)
    as (plan & phases & implement & Hplan & Hphases & Hnames & _).
  eexists. exists plan, phases.
  split; [reflexivity |]. split; [exact Hplan |]. split; [exact Hphases |].
  apply (f_equal (@List.length _)) in Hnames.
  rewrite !length_map in Hnames. exact Hnames.
Defined.

Lemma orchestrator_does_not_validate_the_prd_witness :
  exists verdict,
    PRDValidator.validate_prd (PRDValidator.init "./product/prd.md" "")
      [("title", PStr "Shop")] = Ok verdict
    /\ field "valid" verdict = Some (PBool false)
    /\ orchestrate (init "") "0123abcd-0000" request_with_thin_prd
       = Ok (accepted (init "") "0123abcd").
Proof.
  eexists. split; [reflexivity |]. split; [reflexivity |].
  eapply (orchestrator_does_not_validate_the_prd "./product/prd.md" ""
            "0123abcd-0000" request_with_thin_prd [("title", PStr "Shop")]);
    try reflexivity.
  discriminate.
Defined.

End OrchestratorBehaviour.
